(** * notify_on_failure.py: a shallow embedding and its properties

    The script notifies the author of a commit on Slack when a GitLab CI
    pipeline fails.  It is sequential glue around three kinds of effects:
    reads of the process environment, external calls (git subprocesses and
    Slack Web API methods) and lines printed to stdout/stderr.

    The embedding keeps that shape.  Python values are an inductive type,
    the process environment is a finite map, an external call is answered by
    an oracle (the [world]), and a computation is a pair of the events it
    emitted and either a value or the exception that escaped it. *)

From Stdlib Require Import ZArith Ascii String List Bool Lia.
From Stdlib Require Import Floats.SpecFloat.
From stdpp Require Import base option strings list gmap.

Local Open Scope string_scope.
Local Open Scope Z_scope.

(** ** Strings

    A Python [str] is modelled by [string]; a character of the model is a
    code point below 256. *)

Module Str.

(** [str.isspace] on one character (code points below 256):
    U+0009..U+000D, U+001C..U+001F, U+0020, U+0085 and U+00A0. *)
Definition isspace (c : ascii) : bool :=
  let n := nat_of_ascii c in
  ((9 <=? n) && (n <=? 13) || (28 <=? n) && (n <=? 32)
   || (n =? 133) || (n =? 160))%nat.

(** [s.lstrip()] *)
Fixpoint lstrip (s : string) : string :=
  match s with
  | String c s' => if isspace c then lstrip s' else s
  | EmptyString => EmptyString
  end.

(** [s.rstrip()]: a character is dropped when it is white space and
    everything after it has been dropped too. *)
Fixpoint rstrip (s : string) : string :=
  match s with
  | String c s' =>
      match rstrip s' with
      | EmptyString => if isspace c then EmptyString else String c EmptyString
      | r => String c r
      end
  | EmptyString => EmptyString
  end.

(** [s.strip()] *)
Definition strip (s : string) : string := rstrip (lstrip s).

(** [s[:n]] for a non-negative [n] *)
Fixpoint take (n : nat) (s : string) : string :=
  match n, s with
  | S n', String c s' => String c (take n' s')
  | _, _ => EmptyString
  end.

(** [not s] *)
Definition is_empty (s : string) : bool :=
  match s with EmptyString => true | _ => false end.

(** [c in s] *)
Fixpoint mem (c : ascii) (s : string) : bool :=
  match s with
  | String c' s' => if Ascii.eqb c c' then true else mem c s'
  | EmptyString => false
  end.

End Str.

(** ** Python values

    The values that [json.loads] builds and that the Slack client takes and
    returns.  A [dict] with string keys is an association list read from the
    front; a float is an IEEE 754 datum. *)

#[warnings="-register-all"]
Inductive pyval : Type :=
| PyNone
| PyBool (b : bool)
| PyInt (z : Z)
| PyFloat (f : spec_float)
| PyStr (s : string)
| PyList (l : list pyval)
| PyDict (d : list (string * pyval)).

Definition pydict : Type := list (string * pyval).

(** [bool(v)]: the truth value Python gives [v] in [if v], [v or w], [not v]. *)
Definition truthy (v : pyval) : bool :=
  match v with
  | PyNone => false
  | PyBool b => b
  | PyInt z => negb (z =? 0)
  | PyFloat (S754_zero _) => false
  | PyFloat _ => true
  | PyStr s => negb (Str.is_empty s)
  | PyList l => match l with [] => false | _ => true end
  | PyDict d => match d with [] => false | _ => true end
  end.

(** [v or w] *)
Definition py_or (v w : pyval) : pyval := if truthy v then v else w.

(** [type(v).__name__] *)
Definition type_name (v : pyval) : string :=
  match v with
  | PyNone => "NoneType"
  | PyBool _ => "bool"
  | PyInt _ => "int"
  | PyFloat _ => "float"
  | PyStr _ => "str"
  | PyList _ => "list"
  | PyDict _ => "dict"
  end.

(** Lookup of a key in a [dict]. *)
Fixpoint dict_get (key : string) (d : pydict) : option pyval :=
  match d with
  | [] => None
  | (k, v) :: d' => if String.eqb key k then Some v else dict_get key d'
  end.

(** ** Exceptions and results *)

(** [SlackApiError] carries its message and the response of the API; every
    other exception is its class name and message.  Only subclasses of
    [Exception] are modelled. *)
Inductive exn : Type :=
| SlackApiError (msg : string) (response : pydict)
| PyExc (cls : string) (msg : string).

(** [str(e)] *)
Definition exn_str (e : exn) : string :=
  match e with
  | SlackApiError msg _ => msg
  | PyExc _ msg => msg
  end.

Inductive result (A : Type) : Type :=
| Ret (a : A)
| Raise (e : exn).
Arguments Ret {A} a.
Arguments Raise {A} e.

(** ** Events *)

Inductive stream : Type := Stdout | Stderr.

Inductive event : Type :=
| Subprocess (argv : list string)
| SlackCall (method : string) (kwargs : pydict)
| Output (to : stream) (line : string).

(** External calls are subprocesses and Slack API calls; printing is not. *)
Definition is_external (ev : event) : bool :=
  match ev with
  | Subprocess _ | SlackCall _ _ => true
  | Output _ _ => false
  end.

Definition is_subprocess (ev : event) : bool :=
  match ev with Subprocess _ => true | _ => false end.

Definition is_slack_call (ev : event) : bool :=
  match ev with SlackCall _ _ => true | _ => false end.

(** A call of the method [m] of the Slack client. *)
Definition is_call_of (m : string) (ev : event) : bool :=
  match ev with SlackCall m' _ => String.eqb m m' | _ => false end.

(** The destination of a [chat.postMessage] call. *)
Definition post_channel (ev : event) : option pyval :=
  match ev with
  | SlackCall "chat.postMessage" kwargs => dict_get "channel" kwargs
  | _ => None
  end.

(** ** Computations

    A computation yields the events it emitted, in order, and its result.
    [mbind] stops at the first exception. *)

Definition M (A : Type) : Type := list event * result A.

Definition trace {A} (m : M A) : list event := fst m.
Definition outcome {A} (m : M A) : result A := snd m.

#[global] Instance M_ret : MRet M := λ A a, ([], Ret a).

#[global] Instance M_bind : MBind M := λ A B f m,
  match m with
  | (t, Ret a) => let '(t', r) := f a in ((t ++ t')%list, r)
  | (t, Raise e) => (t, Raise e)
  end.

Definition emit (ev : event) : M unit := ([ev], Ret tt).

Definition raise {A} (e : exn) : M A := ([], Raise e).

Definition lift {A} (r : result A) : M A := ([], r).

(** [try: body / except Exception as e: handler e] *)
Definition try_except {A} (body : M A) (handler : exn → M A) : M A :=
  match body with
  | (t, Ret a) => (t, Ret a)
  | (t, Raise e) => let '(t', r) := handler e in ((t ++ t')%list, r)
  end.

(** [try: x = call / except SlackApiError as e: handler e] followed by
    [rest x], which runs outside the [try]. *)
Definition try_slack {A B} (call : M A)
    (handler : string → pydict → M B) (rest : A → M B) : M B :=
  match call with
  | (t, Ret a) => let '(t', r) := rest a in ((t ++ t')%list, r)
  | (t, Raise (SlackApiError msg resp)) =>
      let '(t', r) := handler msg resp in ((t ++ t')%list, r)
  | (t, Raise e) => (t, Raise e)
  end.

(** [print(line)] and [print(line, file=sys.stderr)] *)
Definition print (line : string) : M unit := emit (Output Stdout line).
Definition eprint (line : string) : M unit := emit (Output Stderr line).

(** [assert v] *)
Definition assert_ (v : pyval) : M unit :=
  if truthy v then mret tt else raise (PyExc "AssertionError" "").

(** Reading a local variable that was never assigned. *)
Definition unbound_local {A} (name : string) : M A :=
  raise (PyExc "UnboundLocalError"
           ("cannot access local variable '" +:+ name
            +:+ "' where it is not associated with a value")).

(** [v[key]] for a string [key]: only a [dict] can be indexed that way. *)
Definition getitem (v : pyval) (key : string) : M pyval :=
  match v with
  | PyDict d =>
      match dict_get key d with
      | Some x => mret x
      | None => raise (PyExc "KeyError" key)
      end
  | _ => raise (PyExc "TypeError"
                  ("'" +:+ type_name v +:+ "' object cannot be indexed by a str"))
  end.

(** [v.get(key, dflt)]: only a [dict] has the method. *)
Definition get_method (v : pyval) (key : string) (dflt : pyval) : M pyval :=
  match v with
  | PyDict d => mret (default dflt (dict_get key d))
  | _ => raise (PyExc "AttributeError"
                  ("'" +:+ type_name v +:+ "' object has no attribute 'get'"))
  end.

(** [response[key]] on a [SlackResponse]: [data.get(key, None)]. *)
Definition response_get (data : pydict) (key : string) : pyval :=
  default PyNone (dict_get key data).

(** ** The world outside the process *)

(** What a subprocess did: it ran to an exit code, with the text it wrote to
    its standard output, or it could not be run at all and [subprocess]
    raised (the tool is absent, the directory is gone, ...). *)
Inductive proc_result : Type :=
| Exited (returncode : Z) (stdout : string)
| NotRun (e : exn).

(** The environment of the process and the answers of the external calls.
    [slack_api token method kwargs] is what the Slack client does for the
    call: it returns the data of the response, raises [SlackApiError] when
    the API answers with an error, or raises anything else (a transport
    failure). *)
Record world : Type := World {
  environ : gmap string string;
  run_process : list string → proc_result;
  slack_api : string → string → pydict → result pydict
}.

(** ** The Python library

    [re.search] and [json.loads] are library functions; the embedding takes
    them as an interface.  [re.search] is observed through the truth value
    of its result, or the [re.error] of a pattern that does not compile.
    The one fact about [re] that the script relies on (its default pattern
    matches every string) is a law of the interface. *)

Inductive re_outcome : Type :=
| ReMatch
| ReNoMatch
| ReError (msg : string).

Class PyLib : Type := {
  re_search : string → string → re_outcome;
  json_loads : string → result pyval;
  re_search_dot_star : ∀ s, re_search ".*" s = ReMatch
}.

(** [re.search(r"<([^>]+)>", s)], as the text of group 1 of the leftmost
    match.  At a ['<'] the class [[^>]+] takes the characters up to the next
    ['>'] (greedy, and giving characters back cannot help: the character
    that would have to be ['>'] is one the class took); the match needs that
    run to be non-empty and the ['>'] to be there.  Otherwise the search
    goes on one character to the right. *)
Module Angle.

Definition lt : ascii := "<"%char.
Definition gt : ascii := ">"%char.

(** The longest prefix without ['>'], and what follows it. *)
Fixpoint span (s : string) : string * string :=
  match s with
  | String c s' =>
      if Ascii.eqb c gt then (EmptyString, s)
      else let '(run, rest) := span s' in (String c run, rest)
  | EmptyString => (EmptyString, EmptyString)
  end.

(** A match that starts at the head of [s]. *)
Definition match_here (s : string) : option string :=
  match s with
  | String c s' =>
      if Ascii.eqb c lt then
        match span s' with
        | (String _ _ as run, String _ _) => Some run
        | _ => None
        end
      else None
  | EmptyString => None
  end.

Fixpoint search (s : string) : option string :=
  match match_here s with
  | Some g => Some g
  | None =>
      match s with
      | String _ s' => search s'
      | EmptyString => None
      end
  end.

End Angle.

(** ** The script *)

(** [WebClient(token=token)] *)
Record WebClient : Type := { token : string }.

Section Script.

Context `{lib : PyLib}.
Variable w : world.

(** [os.environ.get(name, default)] with a string default *)
Definition getenv (name : string) (dflt : string) : string :=
  default dflt (environ w !! name).

(** [os.environ.get(name)]: [None] when the variable is unset *)
Definition getenv_opt (name : string) : option string :=
  environ w !! name.

(** [subprocess.check_output(argv, stderr=DEVNULL).decode()]: the output
    of a run that exited with 0; [CalledProcessError] for another exit
    code.  The output is given as decoded text; a run whose output does
    not decode is a [NotRun] of the world. *)
Definition check_output (argv : list string) : M string :=
  emit (Subprocess argv);;
  match run_process w argv with
  | Exited 0 out => mret out
  | Exited _ _ =>
      raise (PyExc "CalledProcessError" "non-zero exit status")
  | NotRun e => raise e
  end.

(** [subprocess.run(argv, check=False, ...)]: the exit code is not
    looked at. *)
Definition subprocess_run (argv : list string) : M unit :=
  emit (Subprocess argv);;
  match run_process w argv with
  | Exited _ _ => mret tt
  | NotRun e => raise e
  end.

(** A method of the client called with keyword arguments. *)
Definition api_call (client : WebClient) (method : string)
    (kwargs : pydict) : M pydict :=
  emit (SlackCall method kwargs);;
  lift (slack_api w (token client) method kwargs).

Definition run_git_show_email (commit_sha : string) : M string :=
  try_except
    (out ← check_output ["git"; "show"; "-s"; "--format=%ae"; commit_sha];
     mret (Str.strip out))
    (λ _, mret "").

Definition parse_email_from_ci_commit_author (s : string) : string :=
  if Str.is_empty s then ""
  else match Angle.search s with
       | Some g => Str.strip g
       | None => ""
       end.

Definition lookup_user_id_by_email (client : WebClient) (email : string)
    : M pyval :=
  if Str.is_empty email then mret (PyStr "")
  else
    try_slack
      (api_call client "users.lookupByEmail" [("email", PyStr email)])
      (λ msg resp,
         assert_ (response_get resp "error");;
         eprint ("Slack email lookup failed: " +:+ msg);;
         mret (PyStr ""))
      (λ response,
         getitem (response_get response "user") "id").

Definition open_dm (client : WebClient) (user_id : pyval) : M pyval :=
  try_slack
    (api_call client "conversations.open"
       [("users", user_id); ("prevent_creation", PyBool false)])
    (λ msg resp,
       eprint ("conversations.open error: " +:+ msg);;
       assert_ (response_get resp "error");;
       mret (PyStr ""))
    (λ response,
       getitem (response_get response "channel") "id").

(** The [channel] argument is not used: the call is made with the
    literal ["ci"].  In the handler, [response] was never assigned. *)
Definition post_message (client : WebClient) (channel : pyval)
    (text : string) (blocks : pyval) : M bool :=
  try_slack
    (api_call client "chat.postMessage"
       [("channel", PyStr "ci"); ("text", PyStr text); ("blocks", blocks)])
    (λ msg resp,
       assert_ (response_get resp "error");;
       response ← unbound_local "response";
       print response;;
       mret false)
    (λ response, mret true).

Definition load_mapping_user_id (email : string) : M pyval :=
  let mapping_raw := getenv "SLACK_MAPPINGS_JSON" "" in
  if Str.is_empty mapping_raw || Str.is_empty email then mret (PyStr "")
  else
    try_except
      (mapping ← lift (json_loads mapping_raw);
       table ← get_method mapping "email_to_user_id" (PyDict []);
       user_id ← get_method table email (PyStr "");
       mret (py_or user_id (PyStr "")))
      (λ e,
         eprint ("SLACK_MAPPINGS_JSON parse error: " +:+ exn_str e);;
         mret (PyStr "")).

(** Lines 134-139 of [main]: the author's email, from [git show], else
    from CI_COMMIT_AUTHOR, else from GITLAB_USER_EMAIL. *)
Definition resolve_author_email (commit_sha : string) : M string :=
  author_email ← run_git_show_email commit_sha;
  let author_email :=
    if Str.is_empty author_email
    then parse_email_from_ci_commit_author (getenv "CI_COMMIT_AUTHOR" "")
    else author_email in
  let author_email :=
    if Str.is_empty author_email
    then getenv "GITLAB_USER_EMAIL" ""
    else author_email in
  mret author_email.

(** [s or dflt] on strings *)
Definition str_or (s dflt : string) : string :=
  if Str.is_empty s then dflt else s.

(** Lines 146-154 of [main]. *)
Definition project_path : string :=
  match getenv_opt "CI_PROJECT_PATH" with
  | Some p => if Str.is_empty p then
                getenv "CI_PROJECT_NAMESPACE" "" +:+ "/"
                +:+ getenv "CI_PROJECT_NAME" ""
              else p
  | None => getenv "CI_PROJECT_NAMESPACE" "" +:+ "/"
            +:+ getenv "CI_PROJECT_NAME" ""
  end.

(** The summary line; the separator before the URL is the literal of the
    source file, byte for byte. *)
Definition summary_text : string :=
  let pipeline_id := getenv "CI_PIPELINE_ID" "" in
  let pipeline_url := getenv "CI_PIPELINE_URL" "" in
  let summary :=
    "A job failed in pipeline " +:+ pipeline_id +:+ " for " +:+ project_path in
  if Str.is_empty pipeline_url then summary
  else summary +:+ " â†’ " +:+ pipeline_url.

Definition mrkdwn (text : string) : pyval :=
  PyDict [("type", PyStr "mrkdwn"); ("text", PyStr text)].

(** Lines 157-179 of [main]: the Block Kit layout. *)
Definition build_blocks (branch commit_sha author_email : string) : pyval :=
  let short_sha := Str.take 8 (str_or commit_sha "unknown") in
  let pipeline_url := getenv "CI_PIPELINE_URL" "" in
  let commit_title := getenv "CI_COMMIT_TITLE" "(no title)" in
  let blocks :=
    [ PyDict [("type", PyStr "header");
              ("text", PyDict [("type", PyStr "plain_text");
                               ("text", PyStr "Pipeline failed");
                               ("emoji", PyBool true)])];
      PyDict [("type", PyStr "section");
              ("fields", PyList
                 [ mrkdwn ("*Project:* " +:+ project_path);
                   mrkdwn ("*Branch:* " +:+ branch);
                   mrkdwn ("*Commit:* `" +:+ short_sha +:+ "`");
                   mrkdwn ("*Author:* " +:+ str_or author_email "unknown") ])];
      PyDict [("type", PyStr "section");
              ("text", mrkdwn ("*Commit title:* " +:+ commit_title))] ] in
  if Str.is_empty pipeline_url then PyList blocks
  else PyList (blocks ++
         [ PyDict [("type", PyStr "section");
                   ("text", mrkdwn ("<" +:+ pipeline_url
                                    +:+ "|Open the failed pipeline>"))] ])%list.

(** Lines 182-184 of [main]: the static table first, the directory of the
    platform only if the table gave nothing. *)
Definition resolve_slack_user (client : WebClient) (author_email : string)
    : M pyval :=
  if Str.is_empty author_email then mret (PyStr "")
  else
    user_id ← load_mapping_user_id author_email;
    if truthy user_id then mret user_id
    else lookup_user_id_by_email client author_email.

(** Lines 197-205 of [main]. *)
Definition post_fallback (client : WebClient)
    (author_email summary : string) (blocks : pyval) : M Z :=
  let fallback := getenv "SLACK_FALLBACK_CHANNEL" "" in
  if Str.is_empty fallback then
    eprint "SLACK_FALLBACK_CHANNEL not set; nothing else to do.";;
    mret 0
  else
    ok ← post_message client (PyStr fallback)
           (summary +:+ " (author: " +:+ str_or author_email "unknown" +:+ ")")
           blocks;
    eprint (if ok : bool then "Posted to fallback channel."
            else "Posting to fallback channel failed.");;
    mret 0.

(** Lines 186-205 of [main]: the direct message, and the fallback channel
    when it was not sent. *)
Definition notify (client : WebClient) (slack_user_id : pyval)
    (author_email summary : string) (blocks : pyval) : M Z :=
  if truthy slack_user_id then
    channel_id ← open_dm client slack_user_id;
    sent ← (if truthy channel_id
            then post_message client channel_id summary blocks
            else mret false);
    if sent : bool then
      print "DM sent successfully.";;
      mret 0
    else
      eprint "DM failed; will try fallback channel.";;
      post_fallback client author_email summary blocks
  else
    eprint "No Slack user id resolved; will try fallback channel.";;
    post_fallback client author_email summary blocks.

Definition main : M Z :=
  let token := getenv "SLACK_BOT_TOKEN" "" in
  let client := {| token := token |} in
  if Str.is_empty token then
    eprint "SLACK_BOT_TOKEN is not set; exiting.";;
    mret 0
  else
    let branch := getenv "CI_COMMIT_REF_NAME" "unknown" in
    let branch_regex := getenv "NOTIFY_BRANCH_REGEX" ".*" in
    match re_search branch_regex branch with
    | ReError msg => raise (PyExc "re.error" msg)
    | ReNoMatch =>
        print ("Branch '" +:+ branch
               +:+ "' does not match NOTIFY_BRANCH_REGEX; skipping.");;
        mret 0
    | ReMatch =>
        let commit_sha := getenv "CI_COMMIT_SHA" "" in
        author_email ← resolve_author_email commit_sha;
        (if Str.is_empty author_email
         then eprint "Could not determine author email; will use fallback channel."
         else print ("Commit author email: " +:+ author_email));;
        let summary := summary_text in
        let blocks := build_blocks branch commit_sha author_email in
        slack_user_id ← resolve_slack_user client author_email;
        notify client slack_user_id author_email summary blocks
    end.

(** The [__main__] block before [main]: with CI_PROJECT_DIR set, mark the
    directory safe for git and try to fetch the full history; whatever
    goes wrong there is dropped. *)
Definition prepare_git : M unit :=
  try_except
    (match getenv_opt "CI_PROJECT_DIR" with
     | Some proj_dir =>
         if Str.is_empty proj_dir then mret tt
         else
           subprocess_run ["git"; "config"; "--global"; "--add";
                           "safe.directory"; proj_dir];;
           subprocess_run ["git"; "fetch"; "--unshallow"]
     | None => mret tt
     end)
    (λ _, mret tt).

(** The whole run: the [__main__] block, which ends in
    [sys.exit(main())]. *)
Definition program : M Z :=
  prepare_git;;
  main.

End Script.

(** The exit status of the process: the argument of [sys.exit], or 1 when
    an exception escaped. *)
Definition exit_status (run : M Z) : Z :=
  match outcome run with
  | Ret n => Z.land n 255
  | Raise _ => 1
  end.

(** ** A reference library

    An instance of [PyLib] to run the script on concrete inputs: a regular
    expression matcher by derivatives and a JSON decoder.  Both cover a
    fragment of what CPython accepts and answer with an error outside it:
    patterns made of literal characters, [.], grouping, [|], the postfix
    operators [*], [+], [?], and a leading [^] and a trailing [$] around a
    pattern without a bar at its top level; JSON texts whose numbers are
    integers and whose strings stay below U+0100.  The message of an error
    is a fixed text, not the one CPython words. *)

Module Regex.

Inductive re : Type :=
| Void
| Eps
| Chr (c : ascii)
| Dot
| Alt (r1 r2 : re)
| Cat (r1 r2 : re)
| Star (r : re).

Fixpoint nullable (r : re) : bool :=
  match r with
  | Void | Chr _ | Dot => false
  | Eps | Star _ => true
  | Alt r1 r2 => nullable r1 || nullable r2
  | Cat r1 r2 => nullable r1 && nullable r2
  end.

Definition newline : ascii := "010"%char.

(** The derivative of [r] by the character [c]; [.] takes every
    character but the newline. *)
Fixpoint deriv (c : ascii) (r : re) : re :=
  match r with
  | Void | Eps => Void
  | Chr c' => if Ascii.eqb c c' then Eps else Void
  | Dot => if Ascii.eqb c newline then Void else Eps
  | Alt r1 r2 => Alt (deriv c r1) (deriv c r2)
  | Cat r1 r2 =>
      if nullable r1 then Alt (Cat (deriv c r1) r2) (deriv c r2)
      else Cat (deriv c r1) r2
  | Star r1 => Cat (deriv c r1) (Star r1)
  end.

(** [$]: the end of the string, or just before a newline that ends it. *)
Definition at_dollar (s : string) : bool :=
  match s with
  | EmptyString => true
  | String c EmptyString => Ascii.eqb c newline
  | _ => false
  end.

(** Does [r] match a prefix of [s] (one that stops at a [$] position
    when [to_end])? *)
Fixpoint match_prefix (to_end : bool) (r : re) (s : string) : bool :=
  (nullable r && (negb to_end || at_dollar s)) ||
  match s with
  | EmptyString => false
  | String c s' => match_prefix to_end (deriv c r) s'
  end.

(** Does [r] match somewhere in [s]? *)
Fixpoint match_anywhere (to_end : bool) (r : re) (s : string) : bool :=
  match_prefix to_end r s ||
  match s with
  | EmptyString => false
  | String _ s' => match_anywhere to_end r s'
  end.

(** A compiled pattern: the expression and its anchors. *)
Record pattern : Type := {
  at_start : bool;
  at_end : bool;
  body : re
}.

Definition is_meta (c : ascii) : bool :=
  Str.mem c ".*+?|()[]{}^$\".

(** The parser, by recursive descent; [fuel] bounds the nesting.
    [parse_alt] reads alternatives separated by a bar, [parse_cat] a
    sequence of repeated atoms up to a closing parenthesis, a bar or the
    end. *)

Definition is_repeat (c : ascii) : bool := Str.mem c "*+?{".

(** One postfix operator at most, with an optional [?] after it (the
    lazy form matches the same strings); a second operator is refused. *)
Definition parse_post (r : re) (s : string) : option (re * string) :=
  let repeated :=
    match s with
    | String "*" s' => Some (Star r, s')
    | String "+" s' => Some (Cat r (Star r), s')
    | String "?" s' => Some (Alt Eps r, s')
    | _ => None
    end in
  match repeated with
  | None => Some (r, s)
  | Some (r', s') =>
      let s'' := match s' with String "?" t => t | _ => s' end in
      match s'' with
      | String c _ => if is_repeat c then None else Some (r', s'')
      | EmptyString => Some (r', s'')
      end
  end.

Fixpoint parse_alt (fuel : nat) (s : string) : option (re * string) :=
  match fuel with
  | O => None
  | S fuel' =>
      match parse_cat fuel' s with
      | Some (r1, String "|" s') =>
          match parse_alt fuel' s' with
          | Some (r2, s'') => Some (Alt r1 r2, s'')
          | None => None
          end
      | other => other
      end
  end
with parse_cat (fuel : nat) (s : string) : option (re * string) :=
  match fuel with
  | O => None
  | S fuel' =>
      match s with
      | EmptyString | String "|" _ | String ")" _ => Some (Eps, s)
      | String c s' =>
          let atom :=
            match c with
            | "("%char =>
                match parse_alt fuel' s' with
                | Some (r, String ")" s'') => Some (r, s'')
                | _ => None
                end
            | "."%char => Some (Dot, s')
            | "\"%char =>
                match s' with
                | String e s'' =>
                    if is_meta e then Some (Chr e, s'') else None
                | EmptyString => None
                end
            | _ => if is_meta c then None else Some (Chr c, s')
            end in
          match atom with
          | Some (r, rest) =>
              match parse_post r rest with
              | Some (r', rest') =>
                  match parse_cat fuel' rest' with
                  | Some (r2, rest'') => Some (Cat r' r2, rest'')
                  | None => None
                  end
              | None => None
              end
          | None => None
          end
      end
  end.

(** A trailing [$] that is not escaped. *)
Fixpoint split_dollar (s : string) : string * bool :=
  match s with
  | String "\" (String c s') =>
      let '(p, d) := split_dollar s' in (String "\" (String c p), d)
  | String "$" EmptyString => (EmptyString, true)
  | String c s' => let '(p, d) := split_dollar s' in (String c p, d)
  | EmptyString => (EmptyString, false)
  end.

Definition compile (p : string) : option pattern :=
  let '(p1, anchored) :=
    match p with
    | String "^" p' => (p', true)
    | _ => (p, false)
    end in
  let '(p2, dollar) := split_dollar p1 in
  match parse_alt (2 * String.length p2 + 2) p2 with
  | Some (Alt r1 r2, EmptyString) =>
      (* an anchor would belong to one alternative only *)
      if anchored || dollar then None
      else Some {| at_start := false; at_end := false; body := Alt r1 r2 |}
  | Some (r, EmptyString) =>
      Some {| at_start := anchored; at_end := dollar; body := r |}
  | _ => None
  end.

Definition search (p s : string) : re_outcome :=
  match compile p with
  | Some pat =>
      let found :=
        if at_start pat then match_prefix (at_end pat) (body pat) s
        else match_anywhere (at_end pat) (body pat) s in
      if found then ReMatch else ReNoMatch
  | None => ReError "pattern outside the supported fragment"
  end.

End Regex.

Module Json.

Definition is_ws (c : ascii) : bool :=
  Str.mem c (String " " (String "009" (String "010" (String "013" "")))).

Fixpoint skip_ws (s : string) : string :=
  match s with
  | String c s' => if is_ws c then skip_ws s' else s
  | EmptyString => EmptyString
  end.

Definition digit (c : ascii) : option Z :=
  let n := Z.of_nat (nat_of_ascii c) in
  if (48 <=? n) && (n <=? 57) then Some (n - 48) else None.

Definition hex (c : ascii) : option Z :=
  let n := Z.of_nat (nat_of_ascii c) in
  if (48 <=? n) && (n <=? 57) then Some (n - 48)
  else if (65 <=? n) && (n <=? 70) then Some (n - 55)
  else if (97 <=? n) && (n <=? 102) then Some (n - 87)
  else None.

Definition chr (n : Z) : ascii := ascii_of_nat (Z.to_nat n).

(** The rest of a string literal, after its opening quote. *)
Fixpoint parse_string (s : string) : option (string * string) :=
  match s with
  | EmptyString => None
  | String "034" s' => Some (EmptyString, s')
  | String "\" (String e s') =>
      let simple (c : ascii) :=
        match parse_string s' with
        | Some (t, rest) => Some (String c t, rest)
        | None => None
        end in
      match e with
      | "034"%char => simple "034"%char
      | "\"%char => simple "\"%char
      | "/"%char => simple "/"%char
      | "b"%char => simple "008"%char
      | "f"%char => simple "012"%char
      | "n"%char => simple "010"%char
      | "r"%char => simple "013"%char
      | "t"%char => simple "009"%char
      | "u"%char =>
          match s' with
          | String "0" (String "0" (String h1 (String h2 s''))) =>
              match hex h1, hex h2, parse_string s'' with
              | Some a, Some b, Some (t, rest) =>
                  Some (String (chr (16 * a + b)) t, rest)
              | _, _, _ => None
              end
          | _ => None
          end
      | _ => None
      end
  | String c s' =>
      if (nat_of_ascii c <? 32)%nat then None
      else match parse_string s' with
           | Some (t, rest) => Some (String c t, rest)
           | None => None
           end
  end.

Fixpoint parse_digits (acc : Z) (s : string) : Z * string :=
  match s with
  | String c s' =>
      match digit c with
      | Some d => parse_digits (10 * acc + d) s'
      | None => (acc, s)
      end
  | EmptyString => (acc, s)
  end.

(** An integer: an optional minus sign, then 0 or a digit 1-9 followed
    by digits; a fraction or an exponent after it is refused. *)
Definition parse_int (s : string) : option (Z * string) :=
  let '(neg, s1) :=
    match s with
    | String "-" s' => (true, s')
    | _ => (false, s)
    end in
  match s1 with
  | String c s2 =>
      match digit c with
      | Some d =>
          let '(n, rest) := if d =? 0 then (0, s2) else parse_digits d s2 in
          match rest with
          | String c' _ =>
              if Str.mem c' ".eE0123456789" then None
              else Some (if neg then - n else n, rest)
          | EmptyString => Some (if neg then - n else n, rest)
          end
      | None => None
      end
  | EmptyString => None
  end.

(** [d[key] = v] on an insertion-ordered [dict] *)
Fixpoint dict_set (key : string) (v : pyval) (d : pydict) : pydict :=
  match d with
  | [] => [(key, v)]
  | (k, x) :: d' =>
      if String.eqb key k then (k, v) :: d' else (k, x) :: dict_set key v d'
  end.

Definition literal (word : string) (v : pyval) (s : string)
    : option (pyval * string) :=
  if String.prefix word s
  then Some (v, String.substring (String.length word)
                  (String.length s - String.length word) s)
  else None.

Fixpoint parse_value (fuel : nat) (s : string) : option (pyval * string) :=
  match fuel with
  | O => None
  | S fuel' =>
      match skip_ws s with
      | String "{" s' =>
          match skip_ws s' with
          | String "}" rest => Some (PyDict [], rest)
          | s'' => parse_members fuel' [] s''
          end
      | String "[" s' =>
          match skip_ws s' with
          | String "]" rest => Some (PyList [], rest)
          | s'' => parse_elements fuel' [] s''
          end
      | String "034" s' =>
          match parse_string s' with
          | Some (t, rest) => Some (PyStr t, rest)
          | None => None
          end
      | String "t" _ as s' => literal "true" (PyBool true) s'
      | String "f" _ as s' => literal "false" (PyBool false) s'
      | String "n" _ as s' => literal "null" PyNone s'
      | s' =>
          match parse_int s' with
          | Some (n, rest) => Some (PyInt n, rest)
          | None => None
          end
      end
  end
with parse_members (fuel : nat) (acc : pydict) (s : string)
    : option (pyval * string) :=
  match fuel with
  | O => None
  | S fuel' =>
      match skip_ws s with
      | String "034" s' =>
          match parse_string s' with
          | Some (key, rest) =>
              match skip_ws rest with
              | String ":" rest' =>
                  match parse_value fuel' rest' with
                  | Some (v, rest'') =>
                      let acc' := dict_set key v acc in
                      match skip_ws rest'' with
                      | String "," more => parse_members fuel' acc' more
                      | String "}" done => Some (PyDict acc', done)
                      | _ => None
                      end
                  | None => None
                  end
              | _ => None
              end
          | None => None
          end
      | _ => None
      end
  end
with parse_elements (fuel : nat) (acc : list pyval) (s : string)
    : option (pyval * string) :=
  match fuel with
  | O => None
  | S fuel' =>
      match parse_value fuel' s with
      | Some (v, rest) =>
          match skip_ws rest with
          | String "," more => parse_elements fuel' (acc ++ [v])%list more
          | String "]" done => Some (PyList (acc ++ [v])%list, done)
          | _ => None
          end
      | None => None
      end
  end.

Definition loads (s : string) : result pyval :=
  match parse_value (2 * String.length s + 2) s with
  | Some (v, rest) =>
      match skip_ws rest with
      | EmptyString => Ret v
      | _ => Raise (PyExc "JSONDecodeError" "Extra data")
      end
  | None => Raise (PyExc "JSONDecodeError" "Expecting value")
  end.

End Json.

(** The pattern [.*] compiles to a starred expression, which matches the
    empty prefix of every string. *)
#[global] Instance reference_lib : PyLib := {|
  re_search := Regex.search;
  json_loads := Json.loads;
  re_search_dot_star := λ s,
    match s with
    | EmptyString => eq_refl
    | String _ _ => eq_refl
    end
|}.

(** ** Worlds for the examples *)

Definition env_of (vars : list (string * string)) : gmap string string :=
  list_to_map vars.

(** git cannot be run. *)
Definition no_git (argv : list string) : proc_result :=
  NotRun (PyExc "FileNotFoundError" "git").

(** git works, and [git show] prints [email] on a line. *)
Definition git_prints (email : string) (argv : list string) : proc_result :=
  match argv with
  | ["git"; "show"; "-s"; "--format=%ae"; _] =>
      Exited 0 (email +:+ String "010" "")
  | _ => Exited 0 ""
  end.

Definition api_error (code : string) : exn :=
  SlackApiError ("The request to the Slack API failed. " +:+ code)
    [("ok", PyBool false); ("error", PyStr code)].

(** A workspace where every call succeeds: the user is U024BE7LH and the
    conversation with them is D069C7QFK. *)
Definition slack_ok (tok method : string) (kwargs : pydict) : result pydict :=
  if String.eqb method "users.lookupByEmail" then
    Ret [("ok", PyBool true); ("user", PyDict [("id", PyStr "U024BE7LH")])]
  else if String.eqb method "conversations.open" then
    Ret [("ok", PyBool true); ("channel", PyDict [("id", PyStr "D069C7QFK")])]
  else Ret [("ok", PyBool true)].

(** The same workspace, but [method] is refused with the error [code]. *)
Definition slack_refuses (method code : string)
    (tok m : string) (kwargs : pydict) : result pydict :=
  if String.eqb m method then Raise (api_error code) else slack_ok tok m kwargs.

(** The API cannot be reached. *)
Definition slack_unreachable (tok method : string) (kwargs : pydict)
    : result pydict :=
  Raise (PyExc "URLError" "timed out").

(** No author can be found, a fallback channel is configured, and Slack
    refuses the post. *)
Definition world_post_refused : world := {|
  environ := env_of [("SLACK_BOT_TOKEN", "xoxb-1");
                     ("SLACK_FALLBACK_CHANNEL", "#ci-failures")];
  run_process := no_git;
  slack_api := slack_refuses "chat.postMessage" "channel_not_found"
|}.

(** The author is found and everything succeeds. *)
Definition world_dm : world := {|
  environ := env_of [("SLACK_BOT_TOKEN", "xoxb-1");
                     ("SLACK_FALLBACK_CHANNEL", "#ci-failures");
                     ("CI_COMMIT_SHA", "0123456789abcdef");
                     ("CI_COMMIT_REF_NAME", "main")];
  run_process := git_prints "alice@x.com";
  slack_api := slack_ok
|}.

(** The author is found, the conversation opens, the post is refused and
    no fallback channel is configured. *)
Definition world_dm_post_refused : world := {|
  environ := env_of [("SLACK_BOT_TOKEN", "xoxb-1");
                     ("CI_COMMIT_SHA", "0123456789abcdef")];
  run_process := git_prints "alice@x.com";
  slack_api := slack_refuses "chat.postMessage" "channel_not_found"
|}.

(** No token, in a GitLab job (CI_PROJECT_DIR is set). *)
Definition world_no_token : world := {|
  environ := env_of [("CI_PROJECT_DIR", "/builds/group/project")];
  run_process := git_prints "alice@x.com";
  slack_api := slack_ok
|}.

(** No author can be found, a fallback channel is configured and every
    call succeeds. *)
Definition world_fallback : world := {|
  environ := env_of [("SLACK_BOT_TOKEN", "xoxb-1");
                     ("SLACK_FALLBACK_CHANNEL", "#ci-failures")];
  run_process := no_git;
  slack_api := slack_ok
|}.

(** A branch outside the release pattern, in a GitLab job, where
    CI_PROJECT_DIR is set. *)
Definition world_filtered_job : world := {|
  environ := env_of [("SLACK_BOT_TOKEN", "xoxb-1");
                     ("SLACK_FALLBACK_CHANNEL", "#ci-failures");
                     ("CI_PROJECT_DIR", "/builds/group/project");
                     ("CI_COMMIT_REF_NAME", "feature/login");
                     ("NOTIFY_BRANCH_REGEX", "^(main|release/.*)$")];
  run_process := git_prints "alice@x.com";
  slack_api := slack_ok
|}.

(** A string between double quotes. *)
Definition quoted (s : string) : string :=
  String "034" s +:+ String "034" "".

(** The mapping of the spec: one dict, email_to_user_id, with the one entry
    a@x.com : U1. *)
Definition mapping_example : string :=
  "{" +:+ quoted "email_to_user_id" +:+ ":{" +:+ quoted "a@x.com" +:+ ":"
  +:+ quoted "U1" +:+ "}}".

Definition mapping_example_value : pyval :=
  PyDict [("email_to_user_id", PyDict [("a@x.com", PyStr "U1")])].

(** The mapping of the spec is configured and Slack cannot be reached. *)
Definition world_mapped : world := {|
  environ := env_of [("SLACK_BOT_TOKEN", "xoxb-1");
                     ("SLACK_MAPPINGS_JSON", mapping_example)];
  run_process := git_prints "a@x.com";
  slack_api := slack_unreachable
|}.

(** The mapping does not decode and Slack does not know the address. *)
Definition world_bad_mapping : world := {|
  environ := env_of [("SLACK_BOT_TOKEN", "xoxb-1");
                     ("SLACK_MAPPINGS_JSON", "{email_to_user_id: nothing")];
  run_process := git_prints "alice@x.com";
  slack_api := slack_refuses "users.lookupByEmail" "users_not_found"
|}.

(** The author is found and Slack cannot be reached. *)
Definition world_unreachable : world := {|
  environ := env_of [("SLACK_BOT_TOKEN", "xoxb-1");
                     ("SLACK_FALLBACK_CHANNEL", "#ci-failures")];
  run_process := git_prints "alice@x.com";
  slack_api := slack_unreachable
|}.

(** The author is found; Slack answers the lookup with an error whose
    response has no error code. *)
Definition world_error_without_code : world := {|
  environ := env_of [("SLACK_BOT_TOKEN", "xoxb-1");
                     ("SLACK_FALLBACK_CHANNEL", "#ci-failures")];
  run_process := git_prints "alice@x.com";
  slack_api := λ tok method kwargs,
    if String.eqb method "users.lookupByEmail"
    then Raise (SlackApiError "The request to the Slack API failed."
                  [("ok", PyBool false)])
    else slack_ok tok method kwargs
|}.

(** ** Vocabulary of the statements *)

(** The posts of a run, by destination. *)
Definition post_channels (t : list event) : list pyval :=
  omap post_channel t.

(** The [git show] query of [run_git_show_email]. *)
Definition git_show (commit_sha : string) : list string :=
  ["git"; "show"; "-s"; "--format=%ae"; commit_sha].

(** What [run_git_show_email] returns in the world [w]: the stripped output
    of a successful query, the empty string for anything else. *)
Definition git_show_email (w : world) (commit_sha : string) : string :=
  match run_process w (git_show commit_sha) with
  | Exited 0 out => Str.strip out
  | _ => ""
  end.

(** The three tiers of the author's email, in the order of the spec. *)
Definition author_email_tiers (from_git from_author_field raw_email : string)
    : string :=
  if negb (Str.is_empty from_git) then from_git
  else if negb (Str.is_empty from_author_field) then from_author_field
  else raw_email.

(** Names for what [main] reads and computes on the way. *)
Section Run.

Context `{lib : PyLib}.
Variable w : world.

Definition bot_token : string := getenv w "SLACK_BOT_TOKEN" "".
Definition slack_client : WebClient := {| token := bot_token |}.
Definition branch : string := getenv w "CI_COMMIT_REF_NAME" "unknown".
Definition branch_regex : string := getenv w "NOTIFY_BRANCH_REGEX" ".*".
Definition commit_sha : string := getenv w "CI_COMMIT_SHA" "".

(** The author's email that [main] works with. *)
Definition author_email : string :=
  author_email_tiers
    (git_show_email w commit_sha)
    (parse_email_from_ci_commit_author (getenv w "CI_COMMIT_AUTHOR" ""))
    (getenv w "GITLAB_USER_EMAIL" "").

(** The line [main] prints about the author. *)
Definition author_line : event :=
  if Str.is_empty author_email
  then Output Stderr "Could not determine author email; will use fallback channel."
  else Output Stdout ("Commit author email: " +:+ author_email).

(** The payload of the run. *)
Definition summary : string := summary_text w.
Definition blocks : pyval := build_blocks w branch commit_sha author_email.

(** The text of the post to the fallback channel. *)
Definition fallback_text : string :=
  summary +:+ " (author: " +:+ str_or author_email "unknown" +:+ ")".

(** The run went past the branch filter: the [git show] lookup, the first
    step after the filter, was made. *)
Definition past_filter : Prop :=
  Subprocess (git_show commit_sha) ∈ trace (main w).

End Run.

(** The two commands of the [__main__] block. *)
Definition git_config_safe (proj_dir : string) : list string :=
  ["git"; "config"; "--global"; "--add"; "safe.directory"; proj_dir].
Definition git_fetch_unshallow : list string :=
  ["git"; "fetch"; "--unshallow"].

(** A [chat.postMessage] call as [post_message] makes it. *)
Definition post_call (channel : pyval) (text : string) (blocks : pyval) : event :=
  SlackCall "chat.postMessage"
    [("channel", channel); ("text", PyStr text); ("blocks", blocks)].

Definition is_post (ev : event) : bool := is_call_of "chat.postMessage" ev.

(** What [post_message] answers for what the API did: [True] when the call
    returned; on [SlackApiError] the handler does not reach its
    [return False]; another exception goes through. *)
Definition post_result (r : result pydict) : result bool :=
  match r with
  | Ret _ => Ret true
  | Raise (SlackApiError _ resp) =>
      if truthy (response_get resp "error")
      then Raise (PyExc "UnboundLocalError"
                    "cannot access local variable 'response' where it is not associated with a value")
      else Raise (PyExc "AssertionError" "")
  | Raise e => Raise e
  end.

(** The static table has nothing for [email]: SLACK_MAPPINGS_JSON is unset
    or empty, or it decodes to a dict without the key email_to_user_id, or
    to one whose table has no entry for [email]. *)
Definition table_misses `{lib : PyLib} (w : world) (email : string) : Prop :=
  getenv w "SLACK_MAPPINGS_JSON" "" = ""
  ∨ ∃ d, json_loads (getenv w "SLACK_MAPPINGS_JSON" "") = Ret (PyDict d)
         ∧ (dict_get "email_to_user_id" d = None
            ∨ ∃ table, dict_get "email_to_user_id" d = Some (PyDict table)
                       ∧ dict_get email table = None).

(** In the words of the claim: the text inside the first angle-bracket
    pair, that is between the first ['<'] and the first ['>'] after it;
    empty when there is no such pair. *)
Fixpoint until_gt (s : string) : option string :=
  match s with
  | String c s' =>
      if Ascii.eqb c ">" then Some EmptyString
      else option_map (String c) (until_gt s')
  | EmptyString => None
  end.

Fixpoint inside_first_pair (s : string) : string :=
  match s with
  | String c s' =>
      if Ascii.eqb c "<" then default EmptyString (until_gt s')
      else inside_first_pair s'
  | EmptyString => EmptyString
  end.

(** In the words of the amended claim: the text inside the first
    angle-bracket pair whose text is not empty.  A ['<'] directly followed
    by ['>'] is an empty pair and is passed over; the empty string when
    there is no pair with a text. *)
Fixpoint first_nonempty_pair (s : string) : string :=
  match s with
  | String c s' =>
      if Ascii.eqb c "<" then
        match until_gt s' with
        | Some (String a g) => String a g
        | _ => first_nonempty_pair s'
        end
      else first_nonempty_pair s'
  | EmptyString => EmptyString
  end.

(** Every ['<'] of the string is directly followed by ['>']: the string
    holds empty pairs only. *)
Fixpoint only_empty_pairs (s : string) : bool :=
  match s with
  | String c s' =>
      (if Ascii.eqb c "<"
       then match s' with
            | String c' _ => Ascii.eqb c' ">"
            | EmptyString => false
            end
       else true)
      && only_empty_pairs s'
  | EmptyString => true
  end.

(** The event is not a post, or it is a post to the literal "ci". *)
Definition to_ci (ev : event) : Prop :=
  ∀ channel, post_channel ev = Some channel → channel = PyStr "ci".

(** The computation returns 0 if it returns. *)
Definition returns_zero (m : M Z) : Prop :=
  ∀ n, outcome m = Ret n → n = 0.

(** ** Vocabulary of the further properties *)

(** The number of calls of the Slack method [m] in a trace. *)
Definition calls (m : string) (t : list event) : nat :=
  length (filter (is_call_of m) t).

(** [isinstance(v, dict)] *)
Definition is_dict (v : pyval) : bool :=
  match v with PyDict _ => true | _ => false end.

(** The static table cannot answer for [email] although
    SLACK_MAPPINGS_JSON is set: the text does not decode, it decodes to
    something that is not a dict, its email_to_user_id is not a dict, or
    the entry for [email] is there and falsy (an empty string, null, 0). *)
Definition table_unusable `{lib : PyLib} (w : world) (email : string) : Prop :=
  let raw := getenv w "SLACK_MAPPINGS_JSON" "" in
  (∃ e, json_loads raw = Raise e)
  ∨ (∃ v, json_loads raw = Ret v ∧ is_dict v = false)
  ∨ (∃ d v, json_loads raw = Ret (PyDict d)
            ∧ dict_get "email_to_user_id" d = Some v ∧ is_dict v = false)
  ∨ (∃ d table v, json_loads raw = Ret (PyDict d)
                  ∧ dict_get "email_to_user_id" d = Some (PyDict table)
                  ∧ dict_get email table = Some v ∧ truthy v = false).

(** The pattern does not compile. *)
Definition world_bad_regex : world := {|
  environ := env_of [("SLACK_BOT_TOKEN", "xoxb-1");
                     ("SLACK_FALLBACK_CHANNEL", "#ci-failures");
                     ("NOTIFY_BRANCH_REGEX", "(main")];
  run_process := git_prints "alice@x.com";
  slack_api := slack_ok
|}.

(** Slack does not know the author; a fallback channel is configured. *)
Definition world_lookup_refused : world := {|
  environ := env_of [("SLACK_BOT_TOKEN", "xoxb-1");
                     ("SLACK_FALLBACK_CHANNEL", "#ci-failures");
                     ("CI_COMMIT_SHA", "0123456789abcdef")];
  run_process := git_prints "alice@x.com";
  slack_api := slack_refuses "users.lookupByEmail" "users_not_found"
|}.

(** The conversation cannot be opened; a fallback channel is configured. *)
Definition world_open_refused : world := {|
  environ := env_of [("SLACK_BOT_TOKEN", "xoxb-1");
                     ("SLACK_FALLBACK_CHANNEL", "#ci-failures");
                     ("CI_COMMIT_SHA", "0123456789abcdef")];
  run_process := git_prints "alice@x.com";
  slack_api := slack_refuses "conversations.open" "user_disabled"
|}.

(** The table maps the author to an empty id. *)
Definition world_empty_entry : world := {|
  environ := env_of [("SLACK_BOT_TOKEN", "xoxb-1");
                     ("SLACK_MAPPINGS_JSON",
                      "{" +:+ quoted "email_to_user_id" +:+ ":{"
                      +:+ quoted "alice@x.com" +:+ ":" +:+ quoted ""
                      +:+ "}}")];
  run_process := git_prints "alice@x.com";
  slack_api := slack_ok
|}.

(** git prints the address with white space around it, and the job runs
    on a shallow clone where the fetch fails. *)
Definition world_padded : world := {|
  environ := env_of [("SLACK_BOT_TOKEN", "xoxb-1");
                     ("CI_PROJECT_DIR", "/builds/group/project");
                     ("GITLAB_USER_EMAIL", " bob@x.com ")];
  run_process := λ argv,
    match argv with
    | ["git"; "show"; "-s"; "--format=%ae"; _] =>
        Exited 0 ("  alice@x.com " +:+ String "010" "")
    | ["git"; "fetch"; "--unshallow"] => Exited 128 ""
    | _ => Exited 0 ""
    end;
  slack_api := slack_ok
|}.

(** The string is empty or starts with a character that is not white
    space. *)
Definition starts_clean (s : string) : Prop :=
  match s with
  | String c _ => Str.isspace c = false
  | EmptyString => True
  end.

(** The bound of a method [m] that only [m'] counts for. *)
Definition one_if (m m' : string) : nat := if String.eqb m m' then 1%nat else 0%nat.

(** The event, if it is a lookup by email, asks for the author of the
    run; if it opens a conversation, it opens it with the user id that the
    resolution returned. *)
Definition carries_resolved `{lib : PyLib} (w : world) (ev : event) : Prop :=
  (is_call_of "users.lookupByEmail" ev = true →
   author_email w ≠ ""
   ∧ ev = SlackCall "users.lookupByEmail" [("email", PyStr (author_email w))])
  ∧ (is_call_of "conversations.open" ev = true →
     ∃ user_id,
       outcome (resolve_slack_user w (slack_client w) (author_email w))
         = Ret user_id
       ∧ truthy user_id = true
       ∧ ev = SlackCall "conversations.open"
                [("users", user_id); ("prevent_creation", PyBool false)]).

(** The event is a printed line, one of the three git commands of the
    script, or a call of one of the three Slack methods it uses. *)
Definition known_event (w : world) (ev : event) : Prop :=
  match ev with
  | Output _ _ => True
  | Subprocess argv =>
      argv = git_show (commit_sha w)
      ∨ argv = git_fetch_unshallow
      ∨ ∃ proj_dir, getenv_opt w "CI_PROJECT_DIR" = Some proj_dir
                    ∧ argv = git_config_safe proj_dir
  | SlackCall method _ =>
      method = "users.lookupByEmail" ∨ method = "conversations.open"
      ∨ method = "chat.postMessage"
  end.

(** An answer of the API that the script copes with, where [field] is the
    part of the answer it reads: a dict under [field] with an [id], or a
    [SlackApiError] that carries an error code. *)
Definition handled (field : string) (r : result pydict) : bool :=
  match r with
  | Ret data =>
      match dict_get field data with
      | Some (PyDict d) =>
          match dict_get "id" d with Some _ => true | None => false end
      | _ => false
      end
  | Raise (SlackApiError _ resp) => truthy (response_get resp "error")
  | Raise _ => false
  end.

(** [r] is an answer, not an exception. *)
Definition returned (r : result pydict) : bool :=
  match r with Ret _ => true | Raise _ => false end.

(** * Properties *)

(** ** Traces and outcomes of composed computations *)

Lemma trace_bind {A B} (m : M A) (f : A → M B) :
  trace (m ≫= f) =
  (trace m ++ match outcome m with
              | Ret a => trace (f a)
              | Raise _ => []
              end)%list.
Proof.
  destruct m as [t [a|e]]; cbn.
  - destruct (f a); reflexivity.
  - symmetry; apply app_nil_r.
Qed.

Lemma outcome_bind {A B} (m : M A) (f : A → M B) :
  outcome (m ≫= f) =
  match outcome m with
  | Ret a => outcome (f a)
  | Raise e => Raise e
  end.
Proof.
  destruct m as [t [a|e]]; cbn; [destruct (f a)|]; reflexivity.
Qed.

Lemma bind_ret {A B} (t : list event) (a : A) (f : A → M B) :
  (t, Ret a) ≫= f = ((t ++ trace (f a))%list, outcome (f a)).
Proof. cbn. destruct (f a); reflexivity. Qed.

Lemma bind_raise {A B} (t : list event) (e : exn) (f : A → M B) :
  (t, Raise e) ≫= f = (t, Raise e).
Proof. reflexivity. Qed.

Lemma M_eta {A} (m : M A) : m = (trace m, outcome m).
Proof. destruct m; reflexivity. Qed.

Lemma bind_returned {A B} (m : M A) (a : A) (f : A → M B) :
  outcome m = Ret a →
  m ≫= f = ((trace m ++ trace (f a))%list, outcome (f a)).
Proof.
  destruct m as [t r]; cbn; intros ->. apply bind_ret.
Qed.

Lemma bind_raised {A B} (m : M A) (e : exn) (f : A → M B) :
  outcome m = Raise e →
  m ≫= f = (trace m, Raise e).
Proof.
  destruct m as [t r]; cbn; intros ->. reflexivity.
Qed.

(** ** The author's email *)

Section Author.

Context `{lib : PyLib}.
Variable w : world.

Lemma run_git_show_email_eq (commit_sha : string) :
  run_git_show_email w commit_sha =
  ([Subprocess (git_show commit_sha)], Ret (git_show_email w commit_sha)).
Proof.
  unfold run_git_show_email, check_output, git_show_email.
  fold (git_show commit_sha).
  destruct (run_process w (git_show commit_sha)) as [[|p|p] out|e];
    reflexivity.
Qed.

Lemma resolve_author_email_eq (commit_sha : string) :
  resolve_author_email w commit_sha =
  ([Subprocess (git_show commit_sha)],
   Ret (author_email_tiers
          (git_show_email w commit_sha)
          (parse_email_from_ci_commit_author (getenv w "CI_COMMIT_AUTHOR" ""))
          (getenv w "GITLAB_USER_EMAIL" ""))).
Proof.
  unfold resolve_author_email. rewrite run_git_show_email_eq, bind_ret.
  cbn. unfold author_email_tiers.
  destruct (git_show_email w commit_sha) as [|c g]; cbn; [|reflexivity].
  destruct (parse_email_from_ci_commit_author _); reflexivity.
Qed.

End Author.

(** C5. The author's email is resolved in three tiers: the result of the
    [git show] lookup for the commit if it is not empty; otherwise the
    address parsed out of CI_COMMIT_AUTHOR if that is not empty; otherwise
    GITLAB_USER_EMAIL as it is.  The lookup always returns (every failure
    of git gives the empty string), it is the only external call of the
    resolution, and a later tier decides the result only when every
    earlier one is empty. *)
Theorem author_email_three_tiers `{lib : PyLib} (w : world) (commit_sha : string) :
  let from_git := git_show_email w commit_sha in
  let from_field :=
    parse_email_from_ci_commit_author (getenv w "CI_COMMIT_AUTHOR" "") in
  let raw := getenv w "GITLAB_USER_EMAIL" "" in
  run_git_show_email w commit_sha
    = ([Subprocess (git_show commit_sha)], Ret from_git)
  ∧ resolve_author_email w commit_sha
    = ([Subprocess (git_show commit_sha)],
       Ret (if negb (Str.is_empty from_git) then from_git
            else if negb (Str.is_empty from_field) then from_field
            else raw)).
Proof.
  cbv zeta. split.
  - apply run_git_show_email_eq.
  - apply resolve_author_email_eq.
Qed.

(** ** The shape of a run *)

Lemma is_empty_true (s : string) : Str.is_empty s = true ↔ s = "".
Proof. destruct s; cbn; split; congruence. Qed.

Lemma is_empty_false (s : string) : Str.is_empty s = false ↔ s ≠ "".
Proof. destruct s; cbn; split; congruence. Qed.

Section Shape.

Context `{lib : PyLib}.
Variable w : world.

Lemma main_no_token :
  bot_token w = "" →
  main w = ([Output Stderr "SLACK_BOT_TOKEN is not set; exiting."], Ret 0).
Proof.
  intros H. unfold main. fold (bot_token w). rewrite H. reflexivity.
Qed.

Lemma main_no_match :
  bot_token w ≠ "" →
  re_search (branch_regex w) (branch w) = ReNoMatch →
  main w =
  ([Output Stdout ("Branch '" +:+ branch w
                   +:+ "' does not match NOTIFY_BRANCH_REGEX; skipping.")],
   Ret 0).
Proof.
  intros Ht Hre. unfold main.
  fold (bot_token w) (branch w) (branch_regex w).
  apply is_empty_false in Ht. rewrite Ht, Hre. reflexivity.
Qed.

Lemma main_bad_regex (msg : string) :
  bot_token w ≠ "" →
  re_search (branch_regex w) (branch w) = ReError msg →
  main w = ([], Raise (PyExc "re.error" msg)).
Proof.
  intros Ht Hre. unfold main.
  fold (bot_token w) (branch w) (branch_regex w).
  apply is_empty_false in Ht. rewrite Ht, Hre. reflexivity.
Qed.

Lemma main_match :
  bot_token w ≠ "" →
  re_search (branch_regex w) (branch w) = ReMatch →
  main w =
  ([Subprocess (git_show (commit_sha w)); author_line w], Ret tt) ≫= λ _,
  resolve_slack_user w (slack_client w) (author_email w) ≫= λ slack_user_id,
  notify w (slack_client w) slack_user_id (author_email w)
    (summary w) (blocks w).
Proof.
  intros Ht Hre. unfold main.
  fold (bot_token w) (branch w) (branch_regex w) (commit_sha w).
  apply is_empty_false in Ht. rewrite Ht, Hre.
  rewrite resolve_author_email_eq. fold (author_email w).
  rewrite !bind_ret. fold (slack_client w) (summary w) (blocks w).
  unfold author_line.
  destruct (Str.is_empty (author_email w)); cbn;
    destruct (resolve_slack_user _ _ _ ≫= _); reflexivity.
Qed.

Lemma prepare_git_outcome : outcome (prepare_git w) = Ret tt.
Proof.
  unfold prepare_git, subprocess_run.
  destruct (getenv_opt w "CI_PROJECT_DIR") as [d|]; [|reflexivity].
  destruct (Str.is_empty d); [reflexivity|].
  fold (git_config_safe d) git_fetch_unshallow.
  destruct (run_process w (git_config_safe d)); [|reflexivity].
  destruct (run_process w git_fetch_unshallow); reflexivity.
Qed.

(** The [__main__] block runs its two git commands when CI_PROJECT_DIR is
    set to a directory, the second one if the first could be run. *)
Lemma prepare_git_trace :
  trace (prepare_git w) =
  match getenv_opt w "CI_PROJECT_DIR" with
  | Some proj_dir =>
      if Str.is_empty proj_dir then []
      else match run_process w (git_config_safe proj_dir) with
           | Exited _ _ => [Subprocess (git_config_safe proj_dir);
                            Subprocess git_fetch_unshallow]
           | NotRun _ => [Subprocess (git_config_safe proj_dir)]
           end
  | None => []
  end.
Proof.
  unfold prepare_git, subprocess_run.
  destruct (getenv_opt w "CI_PROJECT_DIR") as [d|]; [|reflexivity].
  destruct (Str.is_empty d); [reflexivity|].
  fold (git_config_safe d) git_fetch_unshallow.
  destruct (run_process w (git_config_safe d)); [|reflexivity].
  destruct (run_process w git_fetch_unshallow); reflexivity.
Qed.

Lemma program_eq :
  program w = ((trace (prepare_git w) ++ trace (main w))%list, outcome (main w)).
Proof.
  unfold program.
  apply (bind_returned (prepare_git w) tt (λ _, main w)), prepare_git_outcome.
Qed.

End Shape.

(** ** The notifier *)

Section Notifier.

Context `{lib : PyLib}.
Variable w : world.
Variable client : WebClient.

Lemma post_message_eq (channel : pyval) (text : string) (blocks : pyval) :
  post_message w client channel text blocks =
  ([post_call (PyStr "ci") text blocks],
   post_result (slack_api w (token client) "chat.postMessage"
                  [("channel", PyStr "ci"); ("text", PyStr text);
                   ("blocks", blocks)])).
Proof.
  unfold post_message, api_call, post_call, post_result, assert_.
  destruct (slack_api w _ _ _) as [d|[msg resp|cls msg]]; cbn;
    [reflexivity| |reflexivity].
  destruct (truthy (response_get resp "error")); reflexivity.
Qed.

Lemma post_result_not_false (r : result pydict) : post_result r ≠ Ret false.
Proof.
  destruct r as [d|[msg resp|cls msg]]; cbn; try congruence.
  destruct (truthy _); congruence.
Qed.

(** [post_message] never returns [False]. *)
Lemma post_message_not_false (channel : pyval) (text : string) (blocks : pyval) :
  outcome (post_message w client channel text blocks) ≠ Ret false.
Proof. rewrite post_message_eq. apply post_result_not_false. Qed.

Lemma post_fallback_unset (email text : string) (blocks : pyval) :
  getenv w "SLACK_FALLBACK_CHANNEL" "" = "" →
  post_fallback w client email text blocks =
  ([Output Stderr "SLACK_FALLBACK_CHANNEL not set; nothing else to do."], Ret 0).
Proof. intros H. unfold post_fallback. rewrite H. reflexivity. Qed.

Lemma post_fallback_set (email text : string) (blocks : pyval) :
  getenv w "SLACK_FALLBACK_CHANNEL" "" ≠ "" →
  post_fallback w client email text blocks =
  post_message w client (PyStr (getenv w "SLACK_FALLBACK_CHANNEL" ""))
    (text +:+ " (author: " +:+ str_or email "unknown" +:+ ")") blocks
  ≫= λ ok : bool,
  ([Output Stderr (if ok then "Posted to fallback channel."
                   else "Posting to fallback channel failed.")], Ret 0).
Proof.
  intros H%is_empty_false. unfold post_fallback. rewrite H.
  f_equal.
Qed.

(** The events of [open_dm]: the call, and a line when it failed. *)
Lemma open_dm_trace (user_id : pyval) :
  ∃ lines,
    trace (open_dm w client user_id) =
    SlackCall "conversations.open"
      [("users", user_id); ("prevent_creation", PyBool false)] :: lines
    ∧ Forall (λ ev, is_external ev = false) lines.
Proof.
  unfold open_dm, api_call, assert_, getitem.
  destruct (slack_api w _ _ _) as [d|[msg resp|cls msg]]; cbn.
  - destruct (response_get d "channel"); cbn;
      try (eexists; split; [reflexivity|constructor]).
    destruct (dict_get "id" d0); cbn; eexists; (split; [reflexivity|constructor]).
  - destruct (truthy (response_get resp "error")); cbn; eexists;
      (split; [reflexivity|repeat constructor]).
  - eexists; split; [reflexivity|constructor].
Qed.

Lemma lookup_trace (email : string) :
  email ≠ "" →
  ∃ lines,
    trace (lookup_user_id_by_email w client email) =
    SlackCall "users.lookupByEmail" [("email", PyStr email)] :: lines
    ∧ Forall (λ ev, is_external ev = false) lines.
Proof.
  intros H%is_empty_false.
  unfold lookup_user_id_by_email, api_call, assert_, getitem. rewrite H.
  destruct (slack_api w _ _ _) as [d|[msg resp|cls msg]]; cbn.
  - destruct (response_get d "user"); cbn;
      try (eexists; split; [reflexivity|constructor]).
    destruct (dict_get "id" d0); cbn; eexists; (split; [reflexivity|constructor]).
  - destruct (truthy (response_get resp "error")); cbn; eexists;
      (split; [reflexivity|repeat constructor]).
  - eexists; split; [reflexivity|constructor].
Qed.

(** The static table makes no external call and raises nothing. *)
Lemma load_mapping_quiet (email : string) :
  ∃ lines v,
    load_mapping_user_id w email = (lines, Ret v)
    ∧ Forall (λ ev, is_external ev = false) lines.
Proof.
  unfold load_mapping_user_id, get_method.
  destruct (_ || _).
  { exists [], (PyStr ""). split; [reflexivity|constructor]. }
  destruct (json_loads _) as [mapping|e]; cbn.
  2: { eexists _, _. split; [reflexivity|repeat constructor]. }
  destruct mapping; cbn;
    try (eexists _, _; split; [reflexivity|repeat constructor]).
  destruct (default _ _); cbn;
    eexists _, _; (split; [reflexivity|repeat constructor]).
Qed.

End Notifier.

(** ** The exit status *)

(** C1. The exit status is not 0 for every outcome of the external calls.
    With a token and a fallback channel configured, no author to be found
    and a Slack API that answers the post with an error, the handler of
    [post_message] reads [response], which was never assigned: the
    [UnboundLocalError] escapes [main] and the process ends with status 1. *)
Theorem exit_status_is_1_when_post_is_refused :
  outcome (program world_post_refused)
  = Raise (PyExc "UnboundLocalError"
             "cannot access local variable 'response' where it is not associated with a value")
  ∧ exit_status (program world_post_refused) = 1.
Proof. split; vm_compute; reflexivity. Qed.

(** C2. The posts do not go to the destination that was resolved.  On the
    direct-message path the conversation that was opened is D069C7QFK, on
    the fallback path the configured channel is #ci-failures; in both runs
    the one post is addressed to the literal "ci". *)
Theorem posts_are_addressed_to_the_literal_ci :
  (outcome (open_dm world_dm (slack_client world_dm) (PyStr "U024BE7LH"))
   = Ret (PyStr "D069C7QFK")
   ∧ post_channels (trace (program world_dm)) = [PyStr "ci"])
  ∧ (getenv world_fallback "SLACK_FALLBACK_CHANNEL" "" = "#ci-failures"
     ∧ post_channels (trace (program world_fallback)) = [PyStr "ci"]).
Proof. repeat split; vm_compute; reflexivity. Qed.

(** ** A missing token *)

(** The claim C3 as stated fails: without a token, in a job where
    CI_PROJECT_DIR is set, the run still starts two git subprocesses before
    [main] looks at the token. *)
Lemma no_token_still_runs_git :
  bot_token world_no_token = ""
  ∧ filter is_external (trace (program world_no_token))
    = [Subprocess (git_config_safe "/builds/group/project");
       Subprocess git_fetch_unshallow].
Proof. split; vm_compute; reflexivity. Qed.

(** C3, amended. If the bot token is unset or empty, [main] prints one line
    and returns 0 without any external call, and the process exits with
    status 0.  The external calls of the whole run are those of the
    [__main__] block before [main]: none when CI_PROJECT_DIR is unset or
    empty, otherwise [git config] and, if that could be run,
    [git fetch --unshallow].  No Slack API call and no [git show] is made. *)
Theorem no_token_no_notification `{lib : PyLib} (w : world) :
  bot_token w = "" →
  exit_status (program w) = 0
  ∧ main w = ([Output Stderr "SLACK_BOT_TOKEN is not set; exiting."], Ret 0)
  ∧ filter is_slack_call (trace (program w)) = []
  ∧ filter is_external (trace (program w)) =
    match getenv_opt w "CI_PROJECT_DIR" with
    | Some proj_dir =>
        if Str.is_empty proj_dir then []
        else match run_process w (git_config_safe proj_dir) with
             | Exited _ _ => [Subprocess (git_config_safe proj_dir);
                              Subprocess git_fetch_unshallow]
             | NotRun _ => [Subprocess (git_config_safe proj_dir)]
             end
    | None => []
    end.
Proof.
  intros H. pose proof (main_no_token w H) as Hmain.
  rewrite program_eq, Hmain, prepare_git_trace. unfold exit_status. cbn.
  repeat split.
  - destruct (getenv_opt w "CI_PROJECT_DIR") as [d|]; [|reflexivity].
    destruct (Str.is_empty d); [reflexivity|].
    destruct (run_process w (git_config_safe d)); reflexivity.
  - destruct (getenv_opt w "CI_PROJECT_DIR") as [d|]; [|reflexivity].
    destruct (Str.is_empty d); [reflexivity|].
    destruct (run_process w (git_config_safe d)); reflexivity.
Qed.

Lemma no_token_no_notification_witness :
  bot_token world_no_token = ""
  ∧ exit_status (program world_no_token) = 0.
Proof.
  split; [reflexivity|].
  exact (proj1 (no_token_no_notification world_no_token eq_refl)).
Defined.

(** ** The branch filter *)

(** The claim C4 as stated fails: on a branch that does not match, in a job
    where CI_PROJECT_DIR is set, the run has already started its two git
    subprocesses (one of them fetches from the remote) when [main] finds
    the mismatch. *)
Lemma mismatch_still_runs_git :
  bot_token world_filtered_job = "xoxb-1"
  ∧ re_search (branch_regex world_filtered_job) (branch world_filtered_job)
    = ReNoMatch
  ∧ filter is_external (trace (program world_filtered_job))
    = [Subprocess (git_config_safe "/builds/group/project");
       Subprocess git_fetch_unshallow].
Proof. repeat split; vm_compute; reflexivity. Qed.

(** C4, amended. With a token, for every branch name and every pattern,
    the run goes past the branch filter if and only if [re.search] finds
    the pattern in the branch name.  On a mismatch [main] prints one line,
    makes no external call and returns 0, and the process exits with status
    0 and has called no Slack method; the external calls of the whole run
    are those of the [__main__] block before [main]: none when
    CI_PROJECT_DIR is unset or empty, otherwise [git config] and, if that
    could be run, [git fetch --unshallow].  When NOTIFY_BRANCH_REGEX is
    unset the pattern is [.*], which matches every branch name. *)
Theorem branch_filter_iff_match `{lib : PyLib} (w : world) :
  bot_token w ≠ "" →
  (past_filter w ↔ re_search (branch_regex w) (branch w) = ReMatch)
  ∧ (re_search (branch_regex w) (branch w) = ReNoMatch →
     main w =
       ([Output Stdout ("Branch '" +:+ branch w
                        +:+ "' does not match NOTIFY_BRANCH_REGEX; skipping.")],
        Ret 0)
     ∧ filter is_external (trace (main w)) = []
     ∧ filter is_slack_call (trace (program w)) = []
     ∧ filter is_external (trace (program w)) =
       match getenv_opt w "CI_PROJECT_DIR" with
       | Some proj_dir =>
           if Str.is_empty proj_dir then []
           else match run_process w (git_config_safe proj_dir) with
                | Exited _ _ => [Subprocess (git_config_safe proj_dir);
                                 Subprocess git_fetch_unshallow]
                | NotRun _ => [Subprocess (git_config_safe proj_dir)]
                end
       | None => []
       end
     ∧ exit_status (program w) = 0)
  ∧ (environ w !! "NOTIFY_BRANCH_REGEX" = None → past_filter w).
Proof.
  intros Ht.
  assert (Hyes : re_search (branch_regex w) (branch w) = ReMatch → past_filter w).
  { intros Hre. unfold past_filter.
    rewrite (main_match w Ht Hre), trace_bind. cbn. apply elem_of_cons. by left. }
  split; [split; [|exact Hyes]|split].
  - unfold past_filter. intros Hin.
    destruct (re_search (branch_regex w) (branch w)) as [| |msg] eqn:Hre.
    + reflexivity.
    + rewrite (main_no_match w Ht Hre) in Hin. cbn in Hin.
      apply list_elem_of_singleton in Hin. discriminate.
    + rewrite (main_bad_regex w msg Ht Hre) in Hin. cbn in Hin.
      apply elem_of_nil in Hin. destruct Hin.
  - intros Hre. pose proof (main_no_match w Ht Hre) as Hmain.
    split; [exact Hmain|]. rewrite program_eq, Hmain.
    unfold exit_status. cbn [trace fst outcome snd].
    split; [reflexivity|].
    rewrite !filter_app, prepare_git_trace.
    repeat split;
      (destruct (getenv_opt w "CI_PROJECT_DIR") as [d|]; [|reflexivity];
       destruct (Str.is_empty d); [reflexivity|];
       destruct (run_process w (git_config_safe d)); reflexivity).
  - intros Hunset. apply Hyes.
    unfold branch_regex, getenv. rewrite Hunset. apply re_search_dot_star.
Qed.

Lemma branch_filter_iff_match_witness :
  bot_token world_filtered_job ≠ ""
  ∧ (past_filter world_filtered_job
     ↔ re_search (branch_regex world_filtered_job) (branch world_filtered_job)
       = ReMatch)
  ∧ exit_status (program world_filtered_job) = 0.
Proof.
  assert (Ht : bot_token world_filtered_job ≠ "") by (vm_compute; discriminate).
  pose proof (branch_filter_iff_match world_filtered_job Ht) as (Hiff & Hno & _).
  split; [exact Ht|]. split; [exact Hiff|].
  apply Hno. vm_compute. reflexivity.
Defined.

(** ** Which posts a run makes *)

Lemma append_cons_neq (s t : string) (c : ascii) : s +:+ String c t ≠ s.
Proof.
  induction s as [|a s IH]; cbn; [discriminate|].
  intros H. injection H as H. exact (IH H).
Qed.

Lemma filter_post_quiet (lines : list event) :
  Forall (λ ev, is_external ev = false) lines → filter is_post lines = [].
Proof.
  induction 1 as [|ev lines Hev _ IH]; [reflexivity|].
  destruct ev; try discriminate. cbn. exact IH.
Qed.

Section Posts.

Context `{lib : PyLib}.
Variable w : world.

Lemma prepare_git_no_post : filter is_post (trace (prepare_git w)) = [].
Proof.
  rewrite prepare_git_trace.
  destruct (getenv_opt w "CI_PROJECT_DIR") as [d|]; [|reflexivity].
  destruct (Str.is_empty d); [reflexivity|].
  destruct (run_process w (git_config_safe d)); reflexivity.
Qed.

Lemma open_dm_no_post (client : WebClient) (user_id : pyval) :
  filter is_post (trace (open_dm w client user_id)) = [].
Proof.
  destruct (open_dm_trace w client user_id) as (lines & -> & Hq).
  cbn. apply filter_post_quiet, Hq.
Qed.

Lemma lookup_no_post (client : WebClient) (email : string) :
  filter is_post (trace (lookup_user_id_by_email w client email)) = [].
Proof.
  destruct email as [|c email]; [reflexivity|].
  destruct (lookup_trace w client (String c email)) as (lines & -> & Hq);
    [discriminate|].
  cbn. apply filter_post_quiet, Hq.
Qed.

Lemma resolve_slack_user_no_post (client : WebClient) (email : string) :
  filter is_post (trace (resolve_slack_user w client email)) = [].
Proof.
  unfold resolve_slack_user.
  destruct (Str.is_empty email); [reflexivity|].
  destruct (load_mapping_quiet w email) as (lines & v & -> & Hq).
  rewrite bind_ret. cbn [trace fst]. rewrite filter_app, filter_post_quiet by exact Hq.
  destruct (truthy v); [reflexivity|]. apply lookup_no_post.
Qed.

(** The direct message was sent: the trace of [notify] ends with the one
    post and the line that reports it, and [notify] returns 0. *)
Lemma notify_dm_sent (client : WebClient) (user_id channel_id : pyval)
    (email text : string) (blocks : pyval) :
  truthy user_id = true →
  outcome (open_dm w client user_id) = Ret channel_id →
  truthy channel_id = true →
  outcome (post_message w client channel_id text blocks) = Ret true →
  notify w client user_id email text blocks =
  ((trace (open_dm w client user_id)
    ++ [post_call (PyStr "ci") text blocks;
        Output Stdout "DM sent successfully."])%list,
   Ret 0).
Proof.
  intros Hu Hopen Hc Hpost. unfold notify. rewrite Hu.
  rewrite (bind_returned _ _ _ Hopen), Hc.
  rewrite (bind_returned _ _ _ Hpost). rewrite post_message_eq. reflexivity.
Qed.

End Posts.

(** C6. If the direct message is sent (a user id was resolved, the
    conversation was opened with a non-empty channel id and the post
    reported success), the run makes exactly one [chat.postMessage] call,
    the one with the summary as text; the text for the fallback channel is
    posted nowhere; the run ends with the line "DM sent successfully." and
    the exit status 0. *)
Theorem dm_sent_exactly_one_post `{lib : PyLib} (w : world)
    (user_id channel_id : pyval) :
  bot_token w ≠ "" →
  re_search (branch_regex w) (branch w) = ReMatch →
  outcome (resolve_slack_user w (slack_client w) (author_email w)) = Ret user_id →
  truthy user_id = true →
  outcome (open_dm w (slack_client w) user_id) = Ret channel_id →
  truthy channel_id = true →
  outcome (post_message w (slack_client w) channel_id (summary w) (blocks w))
    = Ret true →
  filter is_post (trace (program w))
    = [post_call (PyStr "ci") (summary w) (blocks w)]
  ∧ (∀ channel, post_call channel (fallback_text w) (blocks w) ∉ trace (program w))
  ∧ last (trace (program w)) = Some (Output Stdout "DM sent successfully.")
  ∧ exit_status (program w) = 0.
Proof.
  intros Ht Hre Hres Hu Hopen Hc Hpost.
  pose proof (notify_dm_sent w _ _ _ (author_email w) _ _ Hu Hopen Hc Hpost)
    as Hnotify.
  assert (Hmain : main w =
    (([Subprocess (git_show (commit_sha w)); author_line w]
      ++ trace (resolve_slack_user w (slack_client w) (author_email w))
      ++ trace (open_dm w (slack_client w) user_id)
      ++ [post_call (PyStr "ci") (summary w) (blocks w);
          Output Stdout "DM sent successfully."])%list, Ret 0)).
  { rewrite (main_match w Ht Hre), bind_ret.
    rewrite (bind_returned _ _ _ Hres), Hnotify. reflexivity. }
  assert (Hposts : filter is_post (trace (program w))
                   = [post_call (PyStr "ci") (summary w) (blocks w)]).
  { rewrite program_eq, Hmain. cbn [trace fst].
    rewrite !filter_app, prepare_git_no_post, resolve_slack_user_no_post,
      open_dm_no_post.
    unfold author_line. destruct (Str.is_empty (author_email w)); reflexivity. }
  split; [exact Hposts|]. split; [|split].
  - intros channel Hin.
    assert (Hin' : post_call channel (fallback_text w) (blocks w)
                   ∈ filter is_post (trace (program w))).
    { apply list_elem_of_filter. split; [exact I|exact Hin]. }
    rewrite Hposts in Hin'. apply list_elem_of_singleton in Hin'.
    injection Hin' as _ Htext. unfold fallback_text in Htext.
    exact (append_cons_neq _ _ _ Htext).
  - rewrite program_eq, Hmain. cbn [trace fst].
    rewrite !app_assoc. rewrite last_app. reflexivity.
  - rewrite program_eq, Hmain. reflexivity.
Qed.

Lemma dm_sent_exactly_one_post_witness :
  filter is_post (trace (program world_dm))
  = [post_call (PyStr "ci") (summary world_dm) (blocks world_dm)].
Proof.
  refine (proj1 (dm_sent_exactly_one_post world_dm
                   (PyStr "U024BE7LH") (PyStr "D069C7QFK") _ _ _ _ _ _ _));
    vm_compute; (reflexivity || discriminate).
Defined.

(** ** The identity mapper *)

Section Mapper.

Context `{lib : PyLib}.
Variable w : world.
Variable client : WebClient.

Lemma load_mapping_hit (email : string) (d table : pydict) (user_id : pyval) :
  email ≠ "" →
  getenv w "SLACK_MAPPINGS_JSON" "" ≠ "" →
  json_loads (getenv w "SLACK_MAPPINGS_JSON" "") = Ret (PyDict d) →
  dict_get "email_to_user_id" d = Some (PyDict table) →
  dict_get email table = Some user_id →
  truthy user_id = true →
  load_mapping_user_id w email = ([], Ret user_id).
Proof.
  intros He%is_empty_false Hraw%is_empty_false Hjson Htable Hentry Htrue.
  unfold load_mapping_user_id, get_method, py_or.
  rewrite Hraw, He, Hjson. cbn. rewrite Htable. cbn. rewrite Hentry. cbn.
  rewrite Htrue. reflexivity.
Qed.

Lemma load_mapping_miss (email : string) :
  table_misses w email →
  load_mapping_user_id w email = ([], Ret (PyStr "")).
Proof.
  unfold load_mapping_user_id, get_method, py_or.
  intros [Hraw|(d & Hjson & Hd)].
  - rewrite Hraw. reflexivity.
  - destruct (Str.is_empty _ || Str.is_empty _); [reflexivity|].
    rewrite Hjson. cbn.
    destruct Hd as [Hd|(table & Hd & Hentry)]; rewrite Hd; cbn.
    + reflexivity.
    + rewrite Hentry. reflexivity.
Qed.

Lemma load_mapping_malformed (email : string) (e : exn) :
  email ≠ "" →
  getenv w "SLACK_MAPPINGS_JSON" "" ≠ "" →
  json_loads (getenv w "SLACK_MAPPINGS_JSON" "") = Raise e →
  load_mapping_user_id w email =
  ([Output Stderr ("SLACK_MAPPINGS_JSON parse error: " +:+ exn_str e)],
   Ret (PyStr "")).
Proof.
  intros He%is_empty_false Hraw%is_empty_false Hjson.
  unfold load_mapping_user_id. rewrite Hraw, He, Hjson. reflexivity.
Qed.

Lemma lookup_api_error (email msg : string) (resp : pydict) :
  email ≠ "" →
  slack_api w (token client) "users.lookupByEmail" [("email", PyStr email)]
    = Raise (SlackApiError msg resp) →
  truthy (response_get resp "error") = true →
  lookup_user_id_by_email w client email =
  ([SlackCall "users.lookupByEmail" [("email", PyStr email)];
    Output Stderr ("Slack email lookup failed: " +:+ msg)],
   Ret (PyStr "")).
Proof.
  intros He%is_empty_false Hapi Herr.
  unfold lookup_user_id_by_email, api_call, assert_.
  rewrite He. cbn. rewrite Hapi, Herr. reflexivity.
Qed.

End Mapper.

(** C7. The static table short-circuits the resolution.  With the mapping
    of the spec configured (and decoded by [json.loads] to the dict it
    denotes), resolving a@x.com gives U1 and emits no event at all, so
    [users.lookupByEmail] is not called.  For a non-empty email that the
    table has nothing for (the variable is unset or empty, the dict has no
    table, or the table has no entry for it), the resolution is the remote
    lookup, which calls [users.lookupByEmail] with that email. *)
Theorem static_table_short_circuits `{lib : PyLib} (w : world) (client : WebClient) :
  (getenv w "SLACK_MAPPINGS_JSON" "" = mapping_example →
   json_loads mapping_example = Ret mapping_example_value →
   load_mapping_user_id w "a@x.com" = ([], Ret (PyStr "U1"))
   ∧ resolve_slack_user w client "a@x.com" = ([], Ret (PyStr "U1")))
  ∧ (∀ email, email ≠ "" → table_misses w email →
     resolve_slack_user w client email = lookup_user_id_by_email w client email
     ∧ SlackCall "users.lookupByEmail" [("email", PyStr email)]
       ∈ trace (resolve_slack_user w client email)).
Proof.
  split.
  - intros Hraw Hjson.
    assert (Hload : load_mapping_user_id w "a@x.com" = ([], Ret (PyStr "U1"))).
    { apply (load_mapping_hit w "a@x.com"
               [("email_to_user_id", PyDict [("a@x.com", PyStr "U1")])]
               [("a@x.com", PyStr "U1")]); try reflexivity.
      - discriminate.
      - rewrite Hraw. discriminate.
      - rewrite Hraw. exact Hjson. }
    split; [exact Hload|].
    unfold resolve_slack_user. cbn [Str.is_empty]. rewrite Hload. reflexivity.
  - intros email He Hmiss.
    assert (Heq : resolve_slack_user w client email
                  = lookup_user_id_by_email w client email).
    { unfold resolve_slack_user. rewrite (load_mapping_miss w email Hmiss).
      apply is_empty_false in He. rewrite He, bind_ret. cbn.
      symmetry. apply M_eta. }
    split; [exact Heq|]. rewrite Heq.
    destruct (lookup_trace w client email He) as (lines & -> & _).
    apply elem_of_cons. by left.
Qed.

Lemma static_table_short_circuits_witness :
  resolve_slack_user world_mapped (slack_client world_mapped) "a@x.com"
    = ([], Ret (PyStr "U1"))
  ∧ SlackCall "users.lookupByEmail" [("email", PyStr "b@x.com")]
    ∈ trace (resolve_slack_user world_mapped (slack_client world_mapped) "b@x.com").
Proof.
  pose proof (static_table_short_circuits world_mapped (slack_client world_mapped))
    as [Hhit Hmiss].
  split.
  - apply Hhit; vm_compute; reflexivity.
  - apply (Hmiss "b@x.com"); [discriminate|].
    right. exists [("email_to_user_id", PyDict [("a@x.com", PyStr "U1")])].
    split; [vm_compute; reflexivity|].
    right. exists [("a@x.com", PyStr "U1")]. split; reflexivity.
Defined.

(** The claim C9 as stated fails.  An exception of the remote lookup that
    is not a [SlackApiError] (here the API cannot be reached) is not caught
    by [lookup_user_id_by_email]: it escapes the resolution and [main], and
    the process ends with status 1.  A [SlackApiError] whose response has
    no error code is caught, but the handler's [assert] fails on it and the
    [AssertionError] escapes the same way. *)
Lemma lookup_lets_other_errors_escape :
  (outcome (lookup_user_id_by_email world_unreachable
              (slack_client world_unreachable) "alice@x.com")
   = Raise (PyExc "URLError" "timed out")
   ∧ outcome (resolve_slack_user world_unreachable
                (slack_client world_unreachable) "alice@x.com")
     = Raise (PyExc "URLError" "timed out")
   ∧ exit_status (program world_unreachable) = 1)
  ∧ (outcome (lookup_user_id_by_email world_error_without_code
                (slack_client world_error_without_code) "alice@x.com")
     = Raise (PyExc "AssertionError" "")
     ∧ outcome (resolve_slack_user world_error_without_code
                  (slack_client world_error_without_code) "alice@x.com")
       = Raise (PyExc "AssertionError" "")
     ∧ exit_status (program world_error_without_code) = 1).
Proof. repeat split; vm_compute; reflexivity. Qed.

(** C9, amended. The static table never raises and makes no external call:
    when SLACK_MAPPINGS_JSON does not decode, the error is printed to
    stderr and the result is the empty string.  The remote lookup catches
    [SlackApiError] only: when the response carries an error code, the
    error is printed to stderr and the result is the empty string; when it
    carries none, the [assert] of the handler raises [AssertionError].
    Every other exception of the call goes through unchanged.  What the
    lookup raises, the resolution raises too when the table has nothing
    for the email. *)
Theorem identity_mapper_handles_its_errors `{lib : PyLib} (w : world)
    (client : WebClient) (email : string) :
  (∃ lines v, load_mapping_user_id w email = (lines, Ret v)
              ∧ Forall (λ ev, is_external ev = false) lines)
  ∧ (∀ e, email ≠ "" →
       getenv w "SLACK_MAPPINGS_JSON" "" ≠ "" →
       json_loads (getenv w "SLACK_MAPPINGS_JSON" "") = Raise e →
       load_mapping_user_id w email =
       ([Output Stderr ("SLACK_MAPPINGS_JSON parse error: " +:+ exn_str e)],
        Ret (PyStr "")))
  ∧ (∀ msg resp, email ≠ "" →
       slack_api w (token client) "users.lookupByEmail" [("email", PyStr email)]
         = Raise (SlackApiError msg resp) →
       truthy (response_get resp "error") = true →
       lookup_user_id_by_email w client email =
       ([SlackCall "users.lookupByEmail" [("email", PyStr email)];
         Output Stderr ("Slack email lookup failed: " +:+ msg)],
        Ret (PyStr "")))
  ∧ (∀ msg resp, email ≠ "" →
       slack_api w (token client) "users.lookupByEmail" [("email", PyStr email)]
         = Raise (SlackApiError msg resp) →
       truthy (response_get resp "error") = false →
       lookup_user_id_by_email w client email =
       ([SlackCall "users.lookupByEmail" [("email", PyStr email)]],
        Raise (PyExc "AssertionError" "")))
  ∧ (∀ cls msg, email ≠ "" →
       slack_api w (token client) "users.lookupByEmail" [("email", PyStr email)]
         = Raise (PyExc cls msg) →
       lookup_user_id_by_email w client email =
       ([SlackCall "users.lookupByEmail" [("email", PyStr email)]],
        Raise (PyExc cls msg)))
  ∧ (∀ e, email ≠ "" → table_misses w email →
       outcome (lookup_user_id_by_email w client email) = Raise e →
       outcome (resolve_slack_user w client email) = Raise e).
Proof.
  split; [apply load_mapping_quiet|]. split; [|split; [|split; [|split]]].
  - intros e. apply load_mapping_malformed.
  - intros msg resp. apply lookup_api_error.
  - intros msg resp He%is_empty_false Hapi Herr.
    unfold lookup_user_id_by_email, api_call, assert_.
    rewrite He. cbn. rewrite Hapi, Herr. reflexivity.
  - intros cls msg He%is_empty_false Hapi.
    unfold lookup_user_id_by_email, api_call.
    rewrite He. cbn. rewrite Hapi. reflexivity.
  - intros e He Hmiss Hraise.
    unfold resolve_slack_user. rewrite (load_mapping_miss w email Hmiss).
    apply is_empty_false in He. rewrite He, bind_ret. exact Hraise.
Qed.

Lemma identity_mapper_handles_its_errors_witness :
  outcome (load_mapping_user_id world_bad_mapping "alice@x.com")
  = Ret (PyStr "")
  ∧ outcome (lookup_user_id_by_email world_bad_mapping
               (slack_client world_bad_mapping) "alice@x.com")
    = Ret (PyStr "")
  ∧ outcome (lookup_user_id_by_email world_error_without_code
               (slack_client world_error_without_code) "alice@x.com")
    = Raise (PyExc "AssertionError" "")
  ∧ outcome (lookup_user_id_by_email world_unreachable
               (slack_client world_unreachable) "alice@x.com")
    = Raise (PyExc "URLError" "timed out").
Proof.
  pose proof (identity_mapper_handles_its_errors world_bad_mapping
                (slack_client world_bad_mapping) "alice@x.com")
    as (_ & Hjson & Hapi & _).
  pose proof (identity_mapper_handles_its_errors world_error_without_code
                (slack_client world_error_without_code) "alice@x.com")
    as (_ & _ & _ & Hassert & _).
  pose proof (identity_mapper_handles_its_errors world_unreachable
                (slack_client world_unreachable) "alice@x.com")
    as (_ & _ & _ & _ & Hother & _).
  split; [|split; [|split]].
  - rewrite (Hjson (PyExc "JSONDecodeError" "Expecting value"));
      [reflexivity|discriminate|vm_compute; discriminate|vm_compute; reflexivity].
  - rewrite (Hapi ("The request to the Slack API failed. users_not_found")
               [("ok", PyBool false); ("error", PyStr "users_not_found")]);
      [reflexivity|discriminate|vm_compute; reflexivity|reflexivity].
  - rewrite (Hassert "The request to the Slack API failed."
               [("ok", PyBool false)]);
      [reflexivity|discriminate|vm_compute; reflexivity|reflexivity].
  - rewrite (Hother "URLError" "timed out");
      [reflexivity|discriminate|vm_compute; reflexivity].
Defined.

(** ** The parser of CI_COMMIT_AUTHOR *)

#[local] Arguments Ascii.eqb : simpl never.

Lemma span_until_gt (s : string) :
  until_gt s = match Angle.span s with
               | (run, String _ _) => Some run
               | (_, EmptyString) => None
               end.
Proof.
  induction s as [|c s IH]; cbn; [reflexivity|].
  unfold Angle.gt. destruct (Ascii.eqb c ">"); [reflexivity|].
  rewrite IH. destruct (Angle.span s) as [run [|c' rest]]; reflexivity.
Qed.

Lemma append_cons (c : ascii) (s t : string) :
  String c s +:+ t = String c (s +:+ t).
Proof. reflexivity. Qed.

Lemma append_empty_r (s : string) : s +:+ "" = s.
Proof. induction s as [|c s IH]; [reflexivity|]. rewrite append_cons, IH. reflexivity. Qed.

Lemma span_body (body post : string) :
  Str.mem ">" body = false →
  Angle.span (body +:+ String ">" post) = (body, String ">" post).
Proof.
  induction body as [|c body IH]; [reflexivity|].
  rewrite append_cons. cbn. unfold Angle.gt. rewrite (Ascii.eqb_sym c).
  destruct (Ascii.eqb ">" c); [discriminate|].
  intros H. rewrite (IH H). reflexivity.
Qed.

Lemma span_no_gt (s : string) :
  Str.mem ">" s = false → Angle.span s = (s, EmptyString).
Proof.
  induction s as [|c s IH]; cbn; [reflexivity|].
  unfold Angle.gt. rewrite (Ascii.eqb_sym c).
  destruct (Ascii.eqb ">" c); [discriminate|].
  intros H. rewrite (IH H). reflexivity.
Qed.

Lemma search_skips (pre s : string) :
  Str.mem "<" pre = false → Angle.search (pre +:+ s) = Angle.search s.
Proof.
  induction pre as [|c pre IH]; [reflexivity|].
  rewrite append_cons. cbn [Str.mem].
  destruct (Ascii.eqb "<" c) eqn:Hc; [discriminate|].
  intros H. cbn. unfold Angle.lt. rewrite (Ascii.eqb_sym c), Hc.
  apply IH, H.
Qed.

Lemma search_no_lt (s : string) :
  Str.mem "<" s = false → Angle.search s = None.
Proof.
  intros H. rewrite <- (append_empty_r s), (search_skips s "" H). reflexivity.
Qed.

Lemma search_no_gt (s : string) :
  Str.mem ">" s = false → Angle.search s = None.
Proof.
  induction s as [|c s IH]; [reflexivity|].
  cbn [Str.mem]. destruct (Ascii.eqb ">" c); [discriminate|].
  intros H. cbn. rewrite (span_no_gt s H), (IH H).
  destruct (Ascii.eqb c Angle.lt); [destruct s|]; reflexivity.
Qed.

Lemma search_first_pair (s : string) :
  inside_first_pair s ≠ "" → Angle.search s = Some (inside_first_pair s).
Proof.
  induction s as [|c s IH]; cbn; [congruence|].
  unfold Angle.lt. destruct (Ascii.eqb c "<"); [|exact IH].
  rewrite span_until_gt.
  destruct (Angle.span s) as [[|a run] [|c' rest]]; cbn; congruence.
Qed.

(** What [Angle.span] splits off. *)
Lemma span_spec (s run rest : string) :
  Angle.span s = (run, rest) →
  s = run +:+ rest ∧ Str.mem ">" run = false
  ∧ (rest = "" ∨ ∃ rest', rest = String ">" rest').
Proof.
  revert run rest. induction s as [|c s IH]; intros run rest; cbn.
  - intros [= <- <-]. auto.
  - unfold Angle.gt. destruct (Ascii.eqb_spec c ">") as [->|Hc].
    + intros [= <- <-]. eauto.
    + destruct (Angle.span s) as [run' rest'] eqn:Hs. intros [= <- <-].
      destruct (IH _ _ eq_refl) as (-> & Hrun & Hrest).
      repeat split; [|exact Hrest].
      cbn. destruct (Ascii.eqb_spec ">" c) as [<-|_]; [destruct Hc; reflexivity|].
      exact Hrun.
Qed.

Lemma search_cons (c : ascii) (s : string) :
  Angle.search (String c s) =
  match Angle.match_here (String c s) with
  | Some g => Some g
  | None => Angle.search s
  end.
Proof. reflexivity. Qed.

Lemma match_here_spec (s g : string) :
  Angle.match_here s = Some g →
  ∃ post, s = "<" +:+ g +:+ ">" +:+ post ∧ g ≠ "" ∧ Str.mem ">" g = false.
Proof.
  destruct s as [|c s]; [discriminate|]. unfold Angle.match_here.
  destruct (Ascii.eqb_spec c Angle.lt) as [->|_]; [|discriminate].
  destruct (Angle.span s) as [run rest] eqn:Hs.
  destruct (span_spec _ _ _ Hs) as (-> & Hrun & Hrest).
  destruct run as [|a run]; [discriminate|].
  destruct Hrest as [->|[rest' ->]]; [discriminate|].
  intros [= <-]. exists rest'. repeat split; [discriminate|exact Hrun].
Qed.

(** A result of the search is the group of a match of the pattern: the
    input reads ... < g > ... with [g] non-empty and free of ['>']. *)
Lemma search_sound (s g : string) :
  Angle.search s = Some g →
  ∃ pre post, s = pre +:+ "<" +:+ g +:+ ">" +:+ post
              ∧ g ≠ "" ∧ Str.mem ">" g = false.
Proof.
  induction s as [|c s IH]; [discriminate|].
  rewrite search_cons.
  destruct (Angle.match_here (String c s)) as [g'|] eqn:Hhere.
  - intros [= ->]. destruct (match_here_spec _ _ Hhere) as (post & Hs & Hg).
    exists "", post. split; [exact Hs|exact Hg].
  - intros H. destruct (IH H) as (pre & post & -> & Hg).
    exists (String c pre), post. split; [reflexivity|exact Hg].
Qed.

(** The search fails only if the pattern has no match. *)
Lemma search_complete (pre g post : string) :
  g ≠ "" → Str.mem ">" g = false →
  Angle.search (pre +:+ "<" +:+ g +:+ ">" +:+ post) ≠ None.
Proof.
  intros Hg Hgt. induction pre as [|c pre IH].
  - change ("" +:+ "<" +:+ g +:+ ">" +:+ post)
      with (String "<" (g +:+ String ">" post)).
    cbn. rewrite (span_body g post Hgt).
    destruct g; [destruct Hg; reflexivity|discriminate].
  - rewrite append_cons, search_cons.
    destruct (Angle.match_here _); [discriminate|exact IH].
Qed.

(** The search returns the text of the first pair that has one. *)
Lemma search_first_nonempty (s : string) :
  Angle.search s = match first_nonempty_pair s with
                   | EmptyString => None
                   | g => Some g
                   end.
Proof.
  induction s as [|c s IH]; [reflexivity|].
  rewrite search_cons. cbn [Angle.match_here first_nonempty_pair].
  unfold Angle.lt. destruct (Ascii.eqb c "<"); [|exact IH].
  rewrite span_until_gt.
  destruct (Angle.span s) as [[|a run] [|c' rest]]; try exact IH.
  reflexivity.
Qed.

Lemma search_skips_empty_pairs (pre s : string) :
  only_empty_pairs pre = true →
  Angle.search (pre +:+ s) = Angle.search s.
Proof.
  induction pre as [|c pre IH]; [reflexivity|].
  cbn [only_empty_pairs]. intros [Hc Hpre]%andb_true_iff.
  rewrite append_cons, search_cons, (IH Hpre).
  cbn [Angle.match_here]. unfold Angle.lt.
  destruct (Ascii.eqb c "<"); [|reflexivity].
  destruct pre as [|c' pre]; [discriminate|].
  rewrite append_cons. cbn [Angle.span]. unfold Angle.gt. rewrite Hc.
  reflexivity.
Qed.

(** The claim C8 as stated fails: the parser does not return exactly the
    text inside the first angle-bracket pair when white space surrounds
    it, nor when the first pair is empty. *)
Lemma parser_strips_the_text :
  (inside_first_pair "Jane Doe < jane@x.com >" = " jane@x.com "
   ∧ parse_email_from_ci_commit_author "Jane Doe < jane@x.com >" = "jane@x.com")
  ∧ (inside_first_pair "a <> b <x@y>" = ""
     ∧ parse_email_from_ci_commit_author "a <> b <x@y>" = "x@y").
Proof. repeat split; reflexivity. Qed.

(** C8, amended. The parser returns the text inside the first
    angle-bracket pair whose text is not empty (an empty pair is passed
    over), with the white space around it stripped, and the empty string
    when there is no such pair.  Spelled out: for a string whose every
    ['<'] is directly followed by ['>'], then ['<'], a non-empty text
    without ['>'], ['>'] and anything, it returns that text stripped; where
    the first pair has a text, that is the text of the claim.  It returns
    the empty string when the input has no ['<'] or no ['>'], when it is
    empty, and when CI_COMMIT_AUTHOR is unset.  "Jane Doe <jane@x.com>"
    gives "jane@x.com" and "Jane Doe" gives the empty string. *)
Theorem parse_email_stripped_first_pair :
  (∀ s, parse_email_from_ci_commit_author s
        = Str.strip (first_nonempty_pair s))
  ∧ (∀ pre body post,
       only_empty_pairs pre = true → body ≠ "" → Str.mem ">" body = false →
       parse_email_from_ci_commit_author
         (pre +:+ "<" +:+ body +:+ ">" +:+ post) = Str.strip body)
  ∧ (∀ s, inside_first_pair s ≠ "" →
          parse_email_from_ci_commit_author s = Str.strip (inside_first_pair s))
  ∧ (∀ pre body post,
       Str.mem "<" pre = false → body ≠ "" → Str.mem ">" body = false →
       parse_email_from_ci_commit_author
         (pre +:+ "<" +:+ body +:+ ">" +:+ post) = Str.strip body)
  ∧ (∀ s, Str.mem "<" s = false ∨ Str.mem ">" s = false →
          parse_email_from_ci_commit_author s = "")
  ∧ (∀ w, environ w !! "CI_COMMIT_AUTHOR" = None →
          parse_email_from_ci_commit_author (getenv w "CI_COMMIT_AUTHOR" "") = "")
  ∧ parse_email_from_ci_commit_author "Jane Doe <jane@x.com>" = "jane@x.com"
  ∧ parse_email_from_ci_commit_author "Jane Doe" = ""
  ∧ parse_email_from_ci_commit_author "" = ""
  ∧ parse_email_from_ci_commit_author "a <> b <x@y>" = "x@y".
Proof.
  repeat split; try reflexivity.
  - intros s. unfold parse_email_from_ci_commit_author.
    rewrite search_first_nonempty.
    destruct s as [|c s]; [reflexivity|]. cbn [Str.is_empty].
    destruct (first_nonempty_pair (String c s)); reflexivity.
  - intros pre body post Hpre Hbody Hgt.
    unfold parse_email_from_ci_commit_author.
    rewrite (search_skips_empty_pairs pre _ Hpre).
    replace (Str.is_empty (pre +:+ "<" +:+ body +:+ ">" +:+ post)) with false
      by (destruct pre; reflexivity).
    change ("<" +:+ body +:+ ">" +:+ post)
      with (String "<" (body +:+ String ">" post)).
    cbn. rewrite (span_body body post Hgt).
    destruct body; [destruct Hbody|]; reflexivity.
  - intros s H. unfold parse_email_from_ci_commit_author.
    rewrite (search_first_pair s H). destruct s; [|reflexivity].
    destruct H. reflexivity.
  - intros pre body post Hpre Hbody Hgt.
    unfold parse_email_from_ci_commit_author.
    rewrite (search_skips pre _ Hpre).
    replace (Str.is_empty (pre +:+ "<" +:+ body +:+ ">" +:+ post)) with false
      by (destruct pre; reflexivity).
    change ("<" +:+ body +:+ ">" +:+ post)
      with (String "<" (body +:+ String ">" post)).
    cbn. rewrite (span_body body post Hgt).
    destruct body; [destruct Hbody|]; reflexivity.
  - intros s [H|H]; unfold parse_email_from_ci_commit_author;
      [rewrite (search_no_lt s H)|rewrite (search_no_gt s H)];
      destruct s; reflexivity.
  - intros w H. unfold getenv. rewrite H. reflexivity.
Qed.

Lemma parse_email_stripped_first_pair_witness :
  parse_email_from_ci_commit_author
    ("<> Jane Doe <>" +:+ "<" +:+ " jane@x.com " +:+ ">" +:+ " (she) <j@y.org>")
  = "jane@x.com".
Proof.
  destruct parse_email_stripped_first_pair as (_ & H & _).
  rewrite (H "<> Jane Doe <>" " jane@x.com " " (she) <j@y.org>");
    [reflexivity|reflexivity|discriminate|reflexivity].
Defined.

(** ** No fallback channel *)

Section NoFallback.

Context `{lib : PyLib}.
Variable w : world.
Variable client : WebClient.

(** Without a fallback channel, when no user id was resolved or the
    conversation could not be opened, [notify] posts nothing and returns 0. *)
Lemma fallback_unset_nothing_posted (user_id : pyval) (email text : string)
    (blocks : pyval) :
  getenv w "SLACK_FALLBACK_CHANNEL" "" = "" →
  truthy user_id = false
  ∨ (∃ channel_id, outcome (open_dm w client user_id) = Ret channel_id
                   ∧ truthy channel_id = false) →
  outcome (notify w client user_id email text blocks) = Ret 0
  ∧ filter is_post (trace (notify w client user_id email text blocks)) = [].
Proof.
  intros Hfb [Hu|(channel_id & Hopen & Hc)]; unfold notify.
  - rewrite Hu, (post_fallback_unset w client _ _ _ Hfb). split; reflexivity.
  - destruct (truthy user_id).
    + rewrite (bind_returned _ _ _ Hopen), Hc.
      rewrite (post_fallback_unset w client _ _ _ Hfb).
      split; [reflexivity|]. cbn [trace fst].
      rewrite filter_app, open_dm_no_post. reflexivity.
    + rewrite (post_fallback_unset w client _ _ _ Hfb). split; reflexivity.
Qed.

End NoFallback.

(** C10. The code does not have the property when the direct-message path
    fails at the post.  Without a fallback channel, with the author
    resolved to U024BE7LH and the conversation D069C7QFK opened, a post
    that Slack answers with an error makes [post_message] raise
    [UnboundLocalError] instead of returning [False]: no further post is
    made, but the process ends with status 1.  (The defect is the one of
    C1.) *)
Theorem exit_status_is_1_when_dm_post_is_refused :
  let w := world_dm_post_refused in
  getenv w "SLACK_FALLBACK_CHANNEL" "" = ""
  ∧ outcome (resolve_slack_user w (slack_client w) (author_email w))
    = Ret (PyStr "U024BE7LH")
  ∧ outcome (open_dm w (slack_client w) (PyStr "U024BE7LH"))
    = Ret (PyStr "D069C7QFK")
  ∧ slack_api w (bot_token w) "chat.postMessage"
      [("channel", PyStr "ci"); ("text", PyStr (summary w)); ("blocks", blocks w)]
    = Raise (api_error "channel_not_found")
  ∧ filter is_post (trace (program w))
    = [post_call (PyStr "ci") (summary w) (blocks w)]
  ∧ exit_status (program w) = 1.
Proof. cbv zeta. repeat split; vm_compute; reflexivity. Qed.

(** ** Every run *)

Lemma Forall_trace_bind {A B} (P : event → Prop) (m : M A) (f : A → M B) :
  Forall P (trace m) → (∀ a, Forall P (trace (f a))) →
  Forall P (trace (m ≫= f)).
Proof.
  intros Hm Hf. rewrite trace_bind. apply Forall_app. split; [exact Hm|].
  destruct (outcome m); [apply Hf|constructor].
Qed.

Lemma returns_zero_bind {A} (m : M A) (f : A → M Z) :
  (∀ a, returns_zero (f a)) → returns_zero (m ≫= f).
Proof.
  intros Hf n. rewrite outcome_bind.
  destruct (outcome m); [apply Hf|discriminate].
Qed.

Lemma quiet_to_ci (lines : list event) :
  Forall (λ ev, is_external ev = false) lines → Forall to_ci lines.
Proof.
  intros H. eapply Forall_impl; [exact H|].
  intros [argv|method kwargs|to line]; discriminate.
Qed.

Section EveryRun.

Context `{lib : PyLib}.
Variable w : world.

Lemma post_fallback_to_ci (client : WebClient) (email text : string)
    (blocks : pyval) :
  Forall to_ci (trace (post_fallback w client email text blocks))
  ∧ returns_zero (post_fallback w client email text blocks).
Proof.
  unfold post_fallback. destruct (Str.is_empty _).
  - split; [|intros n [= <-]; reflexivity].
    repeat constructor. intros channel. discriminate.
  - split.
    + apply Forall_trace_bind.
      * rewrite post_message_eq. repeat constructor. intros channel [= <-].
        reflexivity.
      * intros ok. repeat constructor. intros channel. discriminate.
    + apply returns_zero_bind. intros ok n [= <-]. reflexivity.
Qed.

Lemma notify_to_ci (client : WebClient) (user_id : pyval)
    (email text : string) (blocks : pyval) :
  Forall to_ci (trace (notify w client user_id email text blocks))
  ∧ returns_zero (notify w client user_id email text blocks).
Proof.
  unfold notify.
  destruct (post_fallback_to_ci client email text blocks) as [Hfb Hfb0].
  assert (Hlater : ∀ line,
    Forall to_ci (trace (eprint line;; post_fallback w client email text blocks))
    ∧ returns_zero (eprint line;; post_fallback w client email text blocks)).
  { intros line. split.
    - apply Forall_trace_bind; [|intros _; exact Hfb].
      repeat constructor. intros channel. discriminate.
    - apply returns_zero_bind. intros _. exact Hfb0. }
  destruct (truthy user_id); [|apply Hlater].
  split.
  - apply Forall_trace_bind.
    { destruct (open_dm_trace w client user_id) as (lines & -> & Hq).
      constructor; [intros channel; discriminate|apply quiet_to_ci, Hq]. }
    intros channel_id. apply Forall_trace_bind.
    { destruct (truthy channel_id); [|constructor].
      rewrite post_message_eq. repeat constructor. intros channel [= <-].
      reflexivity. }
    intros [|]; [|apply Hlater].
    repeat constructor. intros channel. discriminate.
  - apply returns_zero_bind. intros channel_id.
    apply returns_zero_bind. intros [|]; [|apply Hlater].
    intros n [= <-]. reflexivity.
Qed.

(** X3. Whatever the environment and the world: every post of the run is
    addressed to the literal "ci", and [main] returns 0 if it returns, so
    that the exit status is 0 unless an exception escapes. *)
Lemma every_post_goes_to_ci :
  Forall to_ci (trace (program w)) ∧ returns_zero (main w).
Proof.
  assert (Hmain : Forall to_ci (trace (main w)) ∧ returns_zero (main w)).
  { unfold main. destruct (Str.is_empty _).
    { split; [|intros n [= <-]; reflexivity].
      repeat constructor. intros channel. discriminate. }
    destruct (re_search _ _).
    - rewrite resolve_author_email_eq. split.
      + apply Forall_trace_bind.
        { repeat constructor. intros channel. discriminate. }
        intros email. apply Forall_trace_bind.
        { destruct (Str.is_empty email); repeat constructor;
            intros channel; discriminate. }
        intros _. apply Forall_trace_bind; [|intros user_id; apply notify_to_ci].
        unfold resolve_slack_user. destruct (Str.is_empty email); [constructor|].
        destruct (load_mapping_quiet w email) as (lines & v & -> & Hq).
        apply Forall_trace_bind; [apply quiet_to_ci, Hq|].
        intros v'. destruct (truthy v'); [constructor|].
        destruct email as [|c email]; [constructor|].
        destruct (lookup_trace w {| token := getenv w "SLACK_BOT_TOKEN" "" |}
                    (String c email)) as (lines' & -> & Hq'); [discriminate|].
        constructor; [intros channel; discriminate|apply quiet_to_ci, Hq'].
      + do 3 (apply returns_zero_bind; intros ?). apply notify_to_ci.
    - split; [|intros n [= <-]; reflexivity].
      repeat constructor. intros channel. discriminate.
    - split; [constructor|]. intros n. discriminate. }
  split; [|apply Hmain].
  rewrite program_eq. cbn. apply Forall_app. split; [|apply Hmain].
  rewrite prepare_git_trace.
  destruct (getenv_opt w "CI_PROJECT_DIR") as [d|]; [|constructor].
  destruct (Str.is_empty d); [constructor|].
  destruct (run_process w (git_config_safe d)); repeat constructor;
    intros channel; discriminate.
Qed.

End EveryRun.


(** * Further properties *)

(** ** Stripping *)

Lemma lstrip_starts_clean (s : string) : starts_clean (Str.lstrip s).
Proof.
  induction s as [|c s IH]; cbn; [exact I|].
  destruct (Str.isspace c) eqn:Hc; [exact IH|exact Hc].
Qed.

Lemma lstrip_clean (s : string) : starts_clean s → Str.lstrip s = s.
Proof. destruct s as [|c s]; cbn; [reflexivity|]. intros ->. reflexivity. Qed.

Lemma rstrip_starts_clean (s : string) :
  starts_clean s → starts_clean (Str.rstrip s).
Proof.
  destruct s as [|c s]; cbn; [exact id|]. intros Hc.
  destruct (Str.rstrip s); [rewrite Hc|]; exact Hc.
Qed.

Lemma rstrip_rstrip (s : string) : Str.rstrip (Str.rstrip s) = Str.rstrip s.
Proof.
  induction s as [|c s IH]; [reflexivity|].
  cbn [Str.rstrip]. destruct (Str.rstrip s) as [|a r] eqn:Hr.
  - destruct (Str.isspace c) eqn:Hc; [reflexivity|].
    cbn. rewrite Hc. reflexivity.
  - cbn [Str.rstrip] in *. rewrite IH. reflexivity.
Qed.

Lemma strip_strip (s : string) : Str.strip (Str.strip s) = Str.strip s.
Proof.
  unfold Str.strip.
  rewrite (lstrip_clean (Str.rstrip (Str.lstrip s))).
  - apply rstrip_rstrip.
  - apply rstrip_starts_clean, lstrip_starts_clean.
Qed.

Lemma mem_lstrip (c : ascii) (s : string) :
  Str.mem c s = false → Str.mem c (Str.lstrip s) = false.
Proof.
  induction s as [|a s IH]; [exact id|].
  cbn [Str.lstrip]. destruct (Str.isspace a); [|exact id].
  cbn [Str.mem]. destruct (Ascii.eqb c a); [discriminate|exact IH].
Qed.

Lemma mem_rstrip (c : ascii) (s : string) :
  Str.mem c s = false → Str.mem c (Str.rstrip s) = false.
Proof.
  induction s as [|a s IH]; [exact id|].
  cbn [Str.mem Str.rstrip]. destruct (Ascii.eqb c a) eqn:Hc; [discriminate|].
  intros H. specialize (IH H).
  destruct (Str.rstrip s) as [|b r].
  - destruct (Str.isspace a); cbn [Str.mem]; [reflexivity|].
    rewrite Hc. reflexivity.
  - cbn [Str.mem]. rewrite Hc. exact IH.
Qed.

Lemma mem_strip (c : ascii) (s : string) :
  Str.mem c s = false → Str.mem c (Str.strip s) = false.
Proof. intros H. apply mem_rstrip, mem_lstrip, H. Qed.

Lemma parse_email_strip_id (s : string) :
  Str.strip (parse_email_from_ci_commit_author s)
  = parse_email_from_ci_commit_author s.
Proof.
  unfold parse_email_from_ci_commit_author.
  destruct (Str.is_empty s); [reflexivity|].
  destruct (Angle.search s); [apply strip_strip|reflexivity].
Qed.

(** X10. Whatever [parse_email_from_ci_commit_author] returns, if it is not
    empty, was found between angle brackets in the input: the input reads
    [pre < g > post] with [g] free of ['>'], and the result is [g] with the
    white space around it removed; so the result contains no ['>'] and has
    no white space at its ends. *)
Theorem parse_email_result_sound (s : string) :
  parse_email_from_ci_commit_author s ≠ "" →
  (∃ pre g post,
     s = pre +:+ "<" +:+ g +:+ ">" +:+ post
     ∧ Str.mem ">" g = false
     ∧ parse_email_from_ci_commit_author s = Str.strip g)
  ∧ Str.mem ">" (parse_email_from_ci_commit_author s) = false
  ∧ Str.strip (parse_email_from_ci_commit_author s)
    = parse_email_from_ci_commit_author s.
Proof.
  unfold parse_email_from_ci_commit_author.
  destruct (Str.is_empty s); [intros []; reflexivity|].
  destruct (Angle.search s) as [g|] eqn:Hs; [|intros []; reflexivity].
  intros _. destruct (search_sound s g Hs) as (pre & post & -> & _ & Hgt).
  split; [|split].
  - exists pre, g, post. auto.
  - apply mem_strip, Hgt.
  - apply strip_strip.
Qed.

Lemma parse_email_result_sound_witness :
  Str.mem ">" (parse_email_from_ci_commit_author "Jane <jane@x.com> <j@y.org>")
  = false.
Proof.
  refine (proj1 (proj2 (parse_email_result_sound
                          "Jane <jane@x.com> <j@y.org>" _))).
  discriminate.
Defined.

(** X11. When the address of the author comes from [git show] or from
    CI_COMMIT_AUTHOR (one of the first two tiers is not empty), it has no
    white space at its ends: stripping it again changes nothing.  (The third
    tier, GITLAB_USER_EMAIL, is taken as it is.) *)
Theorem author_email_is_stripped (w : world) :
  git_show_email w (commit_sha w) ≠ ""
  ∨ parse_email_from_ci_commit_author (getenv w "CI_COMMIT_AUTHOR" "") ≠ "" →
  Str.strip (author_email w) = author_email w.
Proof.
  unfold author_email, author_email_tiers.
  assert (Hgit : Str.strip (git_show_email w (commit_sha w))
                 = git_show_email w (commit_sha w)).
  { unfold git_show_email.
    destruct (run_process w _) as [[|p|p] out|e];
      [apply strip_strip|reflexivity..]. }
  destruct (git_show_email w (commit_sha w)) as [|c g] eqn:Hg; cbn [Str.is_empty negb].
  - intros [[]|Hp]; [reflexivity|].
    pose proof (parse_email_strip_id (getenv w "CI_COMMIT_AUTHOR" "")) as Hstrip.
    destruct (parse_email_from_ci_commit_author _) as [|a r];
      [destruct Hp; reflexivity|exact Hstrip].
  - intros _. exact Hgit.
Qed.

Lemma author_email_is_stripped_witness :
  author_email world_padded = "alice@x.com"
  ∧ Str.strip (author_email world_padded) = author_email world_padded.
Proof.
  split; [reflexivity|].
  apply author_email_is_stripped. left. vm_compute. discriminate.
Defined.


(** ** How often a method is called *)

Lemma calls_app (m : string) (t1 t2 : list event) :
  calls m (t1 ++ t2) = (calls m t1 + calls m t2)%nat.
Proof. unfold calls. rewrite filter_app. apply length_app. Qed.

Lemma calls_quiet (m : string) (lines : list event) :
  Forall (λ ev, is_external ev = false) lines → calls m lines = 0%nat.
Proof.
  unfold calls. induction 1 as [|ev lines Hev _ IH]; [reflexivity|].
  destruct ev; try discriminate. cbn. exact IH.
Qed.

Lemma calls_cons_call (m m' : string) (kwargs : pydict) (t : list event) :
  calls m (SlackCall m' kwargs :: t)
  = ((if String.eqb m m' then 1 else 0) + calls m t)%nat.
Proof.
  unfold calls. rewrite filter_cons. cbn [is_call_of].
  destruct (String.eqb m m'); reflexivity.
Qed.

Lemma calls_bind {A B} (m : string) (c : M A) (f : A → M B) (n k : nat) :
  (calls m (trace c) ≤ n)%nat →
  (∀ a, outcome c = Ret a → (calls m (trace (f a)) ≤ k)%nat) →
  (calls m (trace (c ≫= f)) ≤ n + k)%nat.
Proof.
  intros Hc Hf. rewrite trace_bind, calls_app.
  destruct (outcome c) as [a|e]; [specialize (Hf a eq_refl)|cbn]; lia.
Qed.

Lemma mret_bind {A B} (a : A) (f : A → M B) : mret a ≫= f = f a.
Proof. cbn. destruct (f a); reflexivity. Qed.

Lemma filter_subprocess_none (t : list event) :
  Forall (λ ev, is_subprocess ev = false) t → filter is_subprocess t = [].
Proof.
  induction 1 as [|ev t Hev _ IH]; [reflexivity|].
  destruct ev; try discriminate; cbn; exact IH.
Qed.

#[local] Ltac no_subprocess :=
  rewrite filter_subprocess_none by (cbn; repeat constructor); cbn; lia.

#[local] Ltac quiet_lines :=
  rewrite calls_quiet by (cbn; repeat constructor); lia.

Section Counting.

Context `{lib : PyLib}.
Variable w : world.
Variable m : string.

Lemma calls_prepare_git : calls m (trace (prepare_git w)) = 0%nat.
Proof.
  rewrite prepare_git_trace.
  destruct (getenv_opt w "CI_PROJECT_DIR") as [d|]; [|reflexivity].
  destruct (Str.is_empty d); [reflexivity|].
  destruct (run_process w (git_config_safe d)); reflexivity.
Qed.

Lemma calls_lookup (client : WebClient) (email : string) :
  (calls m (trace (lookup_user_id_by_email w client email))
   ≤ one_if m "users.lookupByEmail")%nat.
Proof.
  destruct email as [|c email]; [cbn; lia|].
  destruct (lookup_trace w client (String c email)) as (lines & -> & Hq);
    [discriminate|].
  rewrite calls_cons_call, (calls_quiet m lines Hq). unfold one_if. lia.
Qed.

Lemma calls_resolve (client : WebClient) (email : string) :
  (calls m (trace (resolve_slack_user w client email))
   ≤ one_if m "users.lookupByEmail")%nat.
Proof.
  unfold resolve_slack_user. destruct (Str.is_empty email); [cbn; lia|].
  destruct (load_mapping_quiet w email) as (lines & v & -> & Hq).
  rewrite bind_ret. cbn [trace fst]. rewrite calls_app, (calls_quiet m lines Hq).
  destruct (truthy v); [cbn; lia|]. apply calls_lookup.
Qed.

Lemma calls_open_dm (client : WebClient) (user_id : pyval) :
  calls m (trace (open_dm w client user_id)) = one_if m "conversations.open".
Proof.
  destruct (open_dm_trace w client user_id) as (lines & -> & Hq).
  rewrite calls_cons_call, (calls_quiet m lines Hq). unfold one_if. lia.
Qed.

Lemma calls_post_message (client : WebClient) (channel : pyval)
    (text : string) (blocks : pyval) :
  calls m (trace (post_message w client channel text blocks))
  = one_if m "chat.postMessage".
Proof.
  rewrite post_message_eq. unfold post_call. cbn [trace fst].
  rewrite calls_cons_call. unfold one_if. cbn. lia.
Qed.

Lemma calls_post_fallback (client : WebClient) (email text : string)
    (blocks : pyval) :
  (calls m (trace (post_fallback w client email text blocks))
   ≤ one_if m "chat.postMessage")%nat.
Proof.
  unfold post_fallback. destruct (Str.is_empty _); [quiet_lines|].
  replace (one_if m "chat.postMessage")
    with (one_if m "chat.postMessage" + 0)%nat by lia.
  apply calls_bind.
  - rewrite calls_post_message. lia.
  - intros ok _. quiet_lines.
Qed.

(** [notify] opens at most one conversation and posts at most once: the
    fallback is not reached after a post, because [post_message] does not
    return [False]. *)
Lemma calls_notify (client : WebClient) (user_id : pyval)
    (email text : string) (blocks : pyval) :
  (calls m (trace (notify w client user_id email text blocks))
   ≤ one_if m "conversations.open" + one_if m "chat.postMessage")%nat.
Proof.
  unfold notify.
  assert (Hlater : ∀ line,
    (calls m (trace (eprint line;; post_fallback w client email text blocks))
     ≤ one_if m "chat.postMessage")%nat).
  { intros line.
    replace (one_if m "chat.postMessage")
      with (0 + one_if m "chat.postMessage")%nat by lia.
    apply calls_bind; [quiet_lines|intros _ _; apply calls_post_fallback]. }
  destruct (truthy user_id); [|specialize (Hlater
    "No Slack user id resolved; will try fallback channel."); lia].
  apply calls_bind; [rewrite calls_open_dm; lia|].
  intros channel_id _. destruct (truthy channel_id).
  - rewrite post_message_eq.
    destruct (post_result _) as [[|]|e] eqn:Hr.
    + rewrite bind_ret. cbn [trace fst]. rewrite calls_app.
      unfold post_call. rewrite calls_cons_call.
      rewrite (calls_quiet m (trace _)) by repeat constructor.
      unfold one_if, calls. cbn. lia.
    + destruct (post_result_not_false _ Hr).
    + rewrite bind_raise. cbn [trace fst]. unfold post_call.
      rewrite calls_cons_call. unfold one_if. cbn. lia.
  - rewrite mret_bind. apply Hlater.
Qed.

Lemma one_if_distinct :
  (one_if m "users.lookupByEmail" + one_if m "conversations.open"
   + one_if m "chat.postMessage" ≤ 1)%nat.
Proof.
  unfold one_if.
  destruct (String.eqb_spec m "users.lookupByEmail") as [->|_];
    [vm_compute; lia|].
  destruct (String.eqb_spec m "conversations.open") as [->|_];
    [vm_compute; lia|].
  destruct (String.eqb m "chat.postMessage"); lia.
Qed.

End Counting.

(** X1. Whatever the environment and the world do, a run calls each method
    of the Slack client at most once (in particular it posts at most one
    message), and [main] starts at most one subprocess, the [git show]
    query. *)
Theorem each_method_called_at_most_once `{lib : PyLib} (w : world) (m : string) :
  (calls m (trace (program w)) ≤ 1)%nat
  ∧ (length (filter is_subprocess (trace (main w))) ≤ 1)%nat.
Proof.
  assert (Hmain : (calls m (trace (main w)) ≤ 1)%nat
                  ∧ (length (filter is_subprocess (trace (main w))) ≤ 1)%nat).
  { unfold main. destruct (Str.is_empty _); [split; [quiet_lines|no_subprocess]|].
    destruct (re_search _ _); [|split; [quiet_lines|no_subprocess]..].
    rewrite resolve_author_email_eq, bind_ret.
    set (email := author_email_tiers _ _ _).
    set (client := {| token := getenv w "SLACK_BOT_TOKEN" "" |}).
    split.
    - pose proof (one_if_distinct m) as Hd.
      cbn [trace fst]. rewrite calls_app.
      assert (Hrest : (calls m (trace
                (_ ← (if Str.is_empty email
                      then eprint "Could not determine author email; will use fallback channel."
                      else print ("Commit author email: " +:+ email));
                 slack_user_id ← resolve_slack_user w client email;
                 notify w client slack_user_id email (summary_text w)
                   (build_blocks w (getenv w "CI_COMMIT_REF_NAME" "unknown")
                      (getenv w "CI_COMMIT_SHA" "") email)))
              ≤ 0 + (one_if m "users.lookupByEmail"
                     + (one_if m "conversations.open"
                        + one_if m "chat.postMessage")))%nat).
      { apply calls_bind; [destruct (Str.is_empty email); quiet_lines|].
        intros _ _. apply calls_bind; [apply calls_resolve|].
        intros user_id _. apply calls_notify. }
      change (calls m [Subprocess _]) with 0%nat. lia.
    - cbn [trace fst]. rewrite filter_app, length_app.
      change (length (filter is_subprocess [Subprocess (git_show (getenv w "CI_COMMIT_SHA" ""))]))
        with 1%nat.
      enough (Hall : ∀ line : M unit,
                Forall (λ ev, is_subprocess ev = false) (trace line) →
                Forall (λ ev, is_subprocess ev = false)
                  (trace (line ≫= λ _,
                          resolve_slack_user w client email ≫= λ slack_user_id,
                          notify w client slack_user_id email (summary_text w)
                            (build_blocks w (getenv w "CI_COMMIT_REF_NAME" "unknown")
                               (getenv w "CI_COMMIT_SHA" "") email))));
        [|].
      { specialize (Hall (if Str.is_empty email
                      then eprint "Could not determine author email; will use fallback channel."
                      else print ("Commit author email: " +:+ email))).
        rewrite filter_subprocess_none; [cbn; lia|].
        apply Hall. destruct (Str.is_empty email); repeat constructor. }
      intros line Hline. apply Forall_trace_bind; [exact Hline|]. intros _.
      apply Forall_trace_bind.
      + unfold resolve_slack_user. destruct (Str.is_empty email); [constructor|].
        destruct (load_mapping_quiet w email) as (lines & v & -> & Hl).
        apply Forall_trace_bind.
        * eapply Forall_impl; [exact Hl|]. intros [| |]; (discriminate || reflexivity).
        * intros v'. destruct (truthy v'); [constructor|].
          destruct email as [|c0 email0]; [constructor|].
          destruct (lookup_trace w client (String c0 email0))
            as (lines' & -> & Hl'); [discriminate|].
          constructor; [reflexivity|].
          eapply Forall_impl; [exact Hl'|]. intros [| |]; (discriminate || reflexivity).
      + intros user_id. unfold notify.
        assert (Hfb : ∀ text, Forall (λ ev, is_subprocess ev = false)
                  (trace (post_fallback w client email text
                     (build_blocks w (getenv w "CI_COMMIT_REF_NAME" "unknown")
                        (getenv w "CI_COMMIT_SHA" "") email)))).
        { intros text. unfold post_fallback. destruct (Str.is_empty _);
            [repeat constructor|].
          apply Forall_trace_bind; [rewrite post_message_eq; repeat constructor|].
          intros ok. repeat constructor. }
        destruct (truthy user_id).
        * apply Forall_trace_bind.
          { destruct (open_dm_trace w client user_id) as (lines & -> & Hl).
            constructor; [reflexivity|].
            eapply Forall_impl; [exact Hl|]. intros [| |]; (discriminate || reflexivity). }
          intros channel_id. apply Forall_trace_bind.
          { destruct (truthy channel_id); [|constructor].
            rewrite post_message_eq. repeat constructor. }
          intros [|]; [repeat constructor|].
          apply Forall_trace_bind; [repeat constructor|]. intros _. apply Hfb.
        * apply Forall_trace_bind; [repeat constructor|]. intros _. apply Hfb. }
  split; [|apply Hmain].
  rewrite program_eq. cbn [trace fst]. rewrite calls_app, calls_prepare_git.
  apply Hmain.
Qed.


Lemma eprint_bind {B} (line : string) (k : M B) :
  eprint line ≫= (λ _, k) = (Output Stderr line :: trace k, outcome k).
Proof. apply (bind_ret [Output Stderr line] tt (λ _, k)). Qed.

Lemma print_bind {B} (line : string) (k : M B) :
  print line ≫= (λ _, k) = (Output Stdout line :: trace k, outcome k).
Proof. apply (bind_ret [Output Stdout line] tt (λ _, k)). Qed.

(** ** The start-up block *)

(** X2. The git commands of the [__main__] block are best effort: whether
    they cannot be started or exit with an error, the block raises
    nothing, and the outcome and the exit status of the run are those of
    [main], whose events follow the block's.  The block starts at most two
    subprocesses and calls no Slack method; [git fetch --unshallow] is
    started only after [git config] could be started. *)
Theorem prepare_git_is_best_effort `{lib : PyLib} (w : world) :
  outcome (prepare_git w) = Ret tt
  ∧ program w = ((trace (prepare_git w) ++ trace (main w))%list, outcome (main w))
  ∧ exit_status (program w) = exit_status (main w)
  ∧ (length (trace (prepare_git w)) ≤ 2)%nat
  ∧ Forall (λ ev, is_subprocess ev = true) (trace (prepare_git w))
  ∧ (Subprocess git_fetch_unshallow ∈ trace (prepare_git w) →
     ∃ proj_dir rc out,
       getenv_opt w "CI_PROJECT_DIR" = Some proj_dir ∧ proj_dir ≠ ""
       ∧ run_process w (git_config_safe proj_dir) = Exited rc out).
Proof.
  split; [apply prepare_git_outcome|]. split; [apply program_eq|].
  split; [rewrite program_eq; reflexivity|].
  rewrite prepare_git_trace.
  destruct (getenv_opt w "CI_PROJECT_DIR") as [d|];
    [|repeat split; [cbn; lia|constructor|intros []%elem_of_nil]].
  destruct (Str.is_empty d) eqn:Hd;
    [repeat split; [cbn; lia|constructor|intros []%elem_of_nil]|].
  apply is_empty_false in Hd.
  destruct (run_process w (git_config_safe d)) as [rc out|e] eqn:Hrun.
  - repeat split; [cbn; lia|repeat constructor|]. intros _.
    exists d, rc, out. auto.
  - repeat split; [cbn; lia|repeat constructor|].
    intros [=]%list_elem_of_singleton.
Qed.

(** ** A pattern that does not compile *)

(** X4. With a token, a NOTIFY_BRANCH_REGEX that [re.search] refuses makes
    [main] raise [re.error] before anything else happens: nothing is
    printed, [git show] is not run, no Slack method is called, and the
    process ends with status 1. *)
Theorem bad_regex_stops_the_run `{lib : PyLib} (w : world) (msg : string) :
  bot_token w ≠ "" →
  re_search (branch_regex w) (branch w) = ReError msg →
  main w = ([], Raise (PyExc "re.error" msg))
  ∧ trace (program w) = trace (prepare_git w)
  ∧ filter is_slack_call (trace (program w)) = []
  ∧ exit_status (program w) = 1.
Proof.
  intros Ht Hre. pose proof (main_bad_regex w msg Ht Hre) as Hmain.
  split; [exact Hmain|]. rewrite program_eq, Hmain. cbn [trace fst].
  rewrite app_nil_r. split; [reflexivity|]. split; [|reflexivity].
  rewrite prepare_git_trace.
  destruct (getenv_opt w "CI_PROJECT_DIR") as [d|]; [|reflexivity].
  destruct (Str.is_empty d); [reflexivity|].
  destruct (run_process w (git_config_safe d)); reflexivity.
Qed.

Lemma bad_regex_stops_the_run_witness :
  exit_status (program world_bad_regex) = 1.
Proof.
  refine (proj2 (proj2 (proj2 (bad_regex_stops_the_run world_bad_regex
            "pattern outside the supported fragment" _ _)))).
  - vm_compute. discriminate.
  - vm_compute. reflexivity.
Defined.

(** ** No author *)

Section Fallback.

Context `{lib : PyLib}.
Variable w : world.

(** With a fallback channel and a post that the API accepts,
    [post_fallback] is the post and the line that reports it. *)
Lemma post_fallback_posted (client : WebClient) (email text : string)
    (blocks : pyval) (data : pydict) :
  getenv w "SLACK_FALLBACK_CHANNEL" "" ≠ "" →
  slack_api w (token client) "chat.postMessage"
    [("channel", PyStr "ci");
     ("text", PyStr (text +:+ " (author: " +:+ str_or email "unknown" +:+ ")"));
     ("blocks", blocks)] = Ret data →
  post_fallback w client email text blocks =
  ([post_call (PyStr "ci")
      (text +:+ " (author: " +:+ str_or email "unknown" +:+ ")") blocks;
    Output Stderr "Posted to fallback channel."], Ret 0).
Proof.
  intros Hfb Hapi. rewrite (post_fallback_set w client _ _ _ Hfb).
  rewrite post_message_eq, Hapi. reflexivity.
Qed.

(** [notify] without a user id. *)
Lemma notify_no_user (client : WebClient) (user_id : pyval)
    (email text : string) (blocks : pyval) :
  truthy user_id = false →
  notify w client user_id email text blocks =
  ((Output Stderr "No Slack user id resolved; will try fallback channel."
    :: trace (post_fallback w client email text blocks)),
   outcome (post_fallback w client email text blocks)).
Proof.
  intros Hu. unfold notify. rewrite Hu. apply eprint_bind.
Qed.

(** [notify] when the conversation gave no channel id. *)
Lemma notify_not_opened (client : WebClient) (user_id channel_id : pyval)
    (email text : string) (blocks : pyval) :
  truthy user_id = true →
  outcome (open_dm w client user_id) = Ret channel_id →
  truthy channel_id = false →
  notify w client user_id email text blocks =
  ((trace (open_dm w client user_id)
    ++ Output Stderr "DM failed; will try fallback channel."
       :: trace (post_fallback w client email text blocks))%list,
   outcome (post_fallback w client email text blocks)).
Proof.
  intros Hu Hopen Hc. unfold notify. rewrite Hu.
  rewrite (bind_returned _ _ _ Hopen), Hc, mret_bind, eprint_bind.
  reflexivity.
Qed.

End Fallback.

(** X5. When no address of the author can be determined (all three tiers
    are empty), the run asks Slack for no user and opens no conversation:
    after the [git show] query it prints two lines and goes to the
    fallback channel.  Its only Slack call is the post of the summary with
    "(author: unknown)" appended, made if SLACK_FALLBACK_CHANNEL is set. *)
Theorem no_author_goes_to_fallback `{lib : PyLib} (w : world) :
  bot_token w ≠ "" →
  re_search (branch_regex w) (branch w) = ReMatch →
  author_email w = "" →
  main w =
    ((Subprocess (git_show (commit_sha w))
      :: Output Stderr "Could not determine author email; will use fallback channel."
      :: Output Stderr "No Slack user id resolved; will try fallback channel."
      :: trace (post_fallback w (slack_client w) "" (summary w) (blocks w))),
     outcome (post_fallback w (slack_client w) "" (summary w) (blocks w)))
  ∧ fallback_text w = summary w +:+ " (author: unknown)"
  ∧ filter is_slack_call (trace (main w)) =
    if Str.is_empty (getenv w "SLACK_FALLBACK_CHANNEL" "") then []
    else [post_call (PyStr "ci") (fallback_text w) (blocks w)].
Proof.
  intros Ht Hre Hemail.
  assert (Hmain : main w =
    ((Subprocess (git_show (commit_sha w))
      :: Output Stderr "Could not determine author email; will use fallback channel."
      :: Output Stderr "No Slack user id resolved; will try fallback channel."
      :: trace (post_fallback w (slack_client w) "" (summary w) (blocks w))),
     outcome (post_fallback w (slack_client w) "" (summary w) (blocks w)))).
  { rewrite (main_match w Ht Hre). unfold author_line. rewrite Hemail.
    rewrite bind_ret. unfold resolve_slack_user. cbn [Str.is_empty].
    rewrite mret_bind, notify_no_user by reflexivity. reflexivity. }
  split; [exact Hmain|]. split; [unfold fallback_text; rewrite Hemail; reflexivity|].
  rewrite Hmain. cbn [trace fst].
  unfold post_fallback, fallback_text. rewrite Hemail.
  destruct (Str.is_empty (getenv w "SLACK_FALLBACK_CHANNEL" "")); [reflexivity|].
  rewrite post_message_eq.
  destruct (post_result _) as [ok|e].
  - rewrite bind_ret. destruct ok; reflexivity.
  - rewrite bind_raise. reflexivity.
Qed.

Lemma no_author_goes_to_fallback_witness :
  filter is_slack_call (trace (main world_fallback))
  = [post_call (PyStr "ci") (fallback_text world_fallback) (blocks world_fallback)].
Proof.
  refine (proj2 (proj2 (no_author_goes_to_fallback world_fallback _ _ _)));
    vm_compute; (reflexivity || discriminate).
Defined.


(** ** Errors of the API on the way to the direct message *)

(** X6. When the static table has nothing for the author and Slack answers
    the lookup by email with an API error (carrying an error code), the
    error is printed and the run goes on to the fallback channel: with
    SLACK_FALLBACK_CHANNEL set and the post accepted, the run is exactly
    the [git show] query, the lookup, the post of the fallback text and
    the lines in between, and [main] returns 0. *)
Theorem lookup_error_goes_to_fallback `{lib : PyLib} (w : world)
    (msg : string) (resp data : pydict) :
  bot_token w ≠ "" →
  re_search (branch_regex w) (branch w) = ReMatch →
  author_email w ≠ "" →
  table_misses w (author_email w) →
  slack_api w (bot_token w) "users.lookupByEmail"
    [("email", PyStr (author_email w))] = Raise (SlackApiError msg resp) →
  truthy (response_get resp "error") = true →
  getenv w "SLACK_FALLBACK_CHANNEL" "" ≠ "" →
  slack_api w (bot_token w) "chat.postMessage"
    [("channel", PyStr "ci"); ("text", PyStr (fallback_text w));
     ("blocks", blocks w)] = Ret data →
  main w =
  ([Subprocess (git_show (commit_sha w));
    Output Stdout ("Commit author email: " +:+ author_email w);
    SlackCall "users.lookupByEmail" [("email", PyStr (author_email w))];
    Output Stderr ("Slack email lookup failed: " +:+ msg);
    Output Stderr "No Slack user id resolved; will try fallback channel.";
    post_call (PyStr "ci") (fallback_text w) (blocks w);
    Output Stderr "Posted to fallback channel."],
   Ret 0).
Proof.
  intros Ht Hre Hemail Hmiss Hlookup Herr Hfb Hpost.
  rewrite (main_match w Ht Hre). unfold author_line.
  pose proof Hemail as He. apply is_empty_false in He. rewrite He.
  rewrite bind_ret.
  assert (Hres : resolve_slack_user w (slack_client w) (author_email w) =
    ([SlackCall "users.lookupByEmail" [("email", PyStr (author_email w))];
      Output Stderr ("Slack email lookup failed: " +:+ msg)], Ret (PyStr ""))).
  { unfold resolve_slack_user.
    rewrite He, (load_mapping_miss w _ Hmiss), bind_ret. cbn [truthy Str.is_empty negb].
    rewrite (lookup_api_error w (slack_client w) _ msg resp Hemail Hlookup Herr).
    reflexivity. }
  rewrite Hres, bind_ret, notify_no_user by reflexivity.
  rewrite (post_fallback_posted w (slack_client w) _ _ _ data Hfb Hpost).
  reflexivity.
Qed.

Lemma lookup_error_goes_to_fallback_witness :
  outcome (main world_lookup_refused) = Ret 0
  ∧ calls "chat.postMessage" (trace (main world_lookup_refused)) = 1%nat.
Proof.
  assert (H := lookup_error_goes_to_fallback world_lookup_refused
                 "The request to the Slack API failed. users_not_found"
                 [("ok", PyBool false); ("error", PyStr "users_not_found")]
                 [("ok", PyBool true)]).
  rewrite H.
  - split; reflexivity.
  - vm_compute. discriminate.
  - vm_compute. reflexivity.
  - vm_compute. discriminate.
  - left. vm_compute. reflexivity.
  - vm_compute. reflexivity.
  - reflexivity.
  - vm_compute. discriminate.
  - vm_compute. reflexivity.
Defined.

(** X7. [open_dm] turns an API error that carries an error code into a
    printed line and an empty channel id.  Whenever a user id is resolved
    but the conversation gives no channel id (such an error, or an empty
    id in the answer), nothing is posted to the user: the run prints
    "DM failed; will try fallback channel." and continues with the fallback
    channel, whose post, if any, is the only one of the run and carries the
    fallback text. *)
Theorem dm_not_opened_goes_to_fallback `{lib : PyLib} (w : world)
    (user_id channel_id : pyval) :
  bot_token w ≠ "" →
  re_search (branch_regex w) (branch w) = ReMatch →
  outcome (resolve_slack_user w (slack_client w) (author_email w)) = Ret user_id →
  truthy user_id = true →
  outcome (open_dm w (slack_client w) user_id) = Ret channel_id →
  truthy channel_id = false →
  (∀ msg resp,
     slack_api w (bot_token w) "conversations.open"
       [("users", user_id); ("prevent_creation", PyBool false)]
       = Raise (SlackApiError msg resp) →
     truthy (response_get resp "error") = true →
     open_dm w (slack_client w) user_id =
     ([SlackCall "conversations.open"
         [("users", user_id); ("prevent_creation", PyBool false)];
       Output Stderr ("conversations.open error: " +:+ msg)], Ret (PyStr "")))
  ∧ Output Stderr "DM failed; will try fallback channel." ∈ trace (main w)
  ∧ outcome (main w)
    = outcome (post_fallback w (slack_client w) (author_email w) (summary w) (blocks w))
  ∧ filter is_post (trace (main w)) =
    if Str.is_empty (getenv w "SLACK_FALLBACK_CHANNEL" "") then []
    else [post_call (PyStr "ci") (fallback_text w) (blocks w)].
Proof.
  intros Ht Hre Hres Hu Hopen Hc.
  split.
  { intros msg resp Hapi Herr. unfold open_dm, api_call, assert_.
    cbn. unfold slack_client in *. cbn [token]. rewrite Hapi, Herr. reflexivity. }
  assert (Hmain : main w =
    (([Subprocess (git_show (commit_sha w)); author_line w]
      ++ trace (resolve_slack_user w (slack_client w) (author_email w))
      ++ trace (open_dm w (slack_client w) user_id)
      ++ Output Stderr "DM failed; will try fallback channel."
         :: trace (post_fallback w (slack_client w) (author_email w)
                     (summary w) (blocks w)))%list,
     outcome (post_fallback w (slack_client w) (author_email w)
                (summary w) (blocks w)))).
  { rewrite (main_match w Ht Hre), bind_ret.
    rewrite (bind_returned _ _ _ Hres).
    rewrite (notify_not_opened w _ _ _ _ _ _ Hu Hopen Hc). reflexivity. }
  rewrite Hmain. cbn [trace fst outcome snd]. split; [|split; [reflexivity|]].
  - rewrite !elem_of_app. right. right. right. apply elem_of_cons. by left.
  - rewrite !filter_app, resolve_slack_user_no_post, open_dm_no_post.
    replace (filter is_post [Subprocess (git_show (commit_sha w)); author_line w])
      with (@nil event)
      by (unfold author_line; destruct (Str.is_empty (author_email w)); reflexivity).
    rewrite filter_cons_False by (intros []).
    cbn [app]. unfold post_fallback, fallback_text.
    destruct (Str.is_empty (getenv w "SLACK_FALLBACK_CHANNEL" "")); [reflexivity|].
    rewrite post_message_eq. destruct (post_result _) as [ok|e].
    + rewrite bind_ret. destruct ok; reflexivity.
    + rewrite bind_raise. reflexivity.
Qed.

Lemma dm_not_opened_goes_to_fallback_witness :
  filter is_post (trace (main world_open_refused))
  = [post_call (PyStr "ci") (fallback_text world_open_refused)
       (blocks world_open_refused)].
Proof.
  refine (proj2 (proj2 (proj2 (dm_not_opened_goes_to_fallback world_open_refused
            (PyStr "U024BE7LH") (PyStr "") _ _ _ _ _ _))));
    vm_compute; (reflexivity || discriminate).
Defined.


(** ** Where a user id comes from *)

Section Provenance.

Context `{lib : PyLib}.
Variable w : world.
Variable client : WebClient.

(** A truthy result of the static table is the entry of the table. *)
Lemma load_mapping_truthy_inv (email : string) (user_id : pyval) :
  outcome (load_mapping_user_id w email) = Ret user_id →
  truthy user_id = true →
  ∃ d table,
    json_loads (getenv w "SLACK_MAPPINGS_JSON" "") = Ret (PyDict d)
    ∧ dict_get "email_to_user_id" d = Some (PyDict table)
    ∧ dict_get email table = Some user_id.
Proof.
  unfold load_mapping_user_id, get_method, py_or.
  destruct (_ || _); [intros [= <-]; discriminate|].
  destruct (json_loads _) as [mapping|e]; [|intros [= <-]; discriminate].
  destruct mapping as [| | | | | |d]; try (intros [= <-]; discriminate).
  cbn. destruct (dict_get "email_to_user_id" d) as [v|] eqn:Hd; cbn.
  - destruct v as [| | | | | |table]; try (intros [= <-]; discriminate).
    cbn. destruct (dict_get email table) as [x|] eqn:Hx; cbn.
    + destruct (truthy x) eqn:Hxt; intros [= <-]; [|discriminate].
      intros _. exists d, table. auto.
    + intros [= <-]. discriminate.
  - intros [= <-]. discriminate.
Qed.

(** A result of the remote lookup is the user id of the answer of the
    API, unless it is the empty string. *)
Lemma lookup_truthy_inv (email : string) (user_id : pyval) :
  outcome (lookup_user_id_by_email w client email) = Ret user_id →
  truthy user_id = true →
  ∃ data user,
    slack_api w (token client) "users.lookupByEmail" [("email", PyStr email)]
      = Ret data
    ∧ dict_get "user" data = Some (PyDict user)
    ∧ dict_get "id" user = Some user_id.
Proof.
  unfold lookup_user_id_by_email, api_call, assert_, getitem, response_get.
  destruct (Str.is_empty email); [intros [= <-]; discriminate|]. cbn.
  destruct (slack_api w _ _ _) as [data|[msg resp|cls msg]]; cbn.
  - destruct (dict_get "user" data) as [v|] eqn:Hv; cbn; [|discriminate].
    destruct v as [| | | | | |user]; cbn; try discriminate.
    destruct (dict_get "id" user) as [x|] eqn:Hx; cbn; [|discriminate].
    intros [= <-] _. exists data, user. auto.
  - destruct (truthy (default PyNone (dict_get "error" resp))); cbn;
      [intros [= <-]|]; discriminate.
  - discriminate.
Qed.

End Provenance.

(** X8. The user id a run works with is never made up: a truthy result of
    the resolution is either the entry of the static table for the email
    (SLACK_MAPPINGS_JSON decodes to a dict whose email_to_user_id is a dict
    with that entry) or the [user.id] of the answer of the API to
    [users.lookupByEmail] for that email. *)
Theorem resolved_user_id_provenance `{lib : PyLib} (w : world)
    (client : WebClient) (email : string) (user_id : pyval) :
  outcome (resolve_slack_user w client email) = Ret user_id →
  truthy user_id = true →
  (∃ d table,
     json_loads (getenv w "SLACK_MAPPINGS_JSON" "") = Ret (PyDict d)
     ∧ dict_get "email_to_user_id" d = Some (PyDict table)
     ∧ dict_get email table = Some user_id)
  ∨ (∃ data user,
       slack_api w (token client) "users.lookupByEmail" [("email", PyStr email)]
         = Ret data
       ∧ dict_get "user" data = Some (PyDict user)
       ∧ dict_get "id" user = Some user_id).
Proof.
  unfold resolve_slack_user.
  destruct (Str.is_empty email); [intros [= <-]; discriminate|].
  destruct (load_mapping_quiet w email) as (lines & v & Hload & _).
  rewrite Hload, bind_ret. cbn [outcome snd].
  destruct (truthy v) eqn:Hv.
  - intros [= <-] _. left.
    apply (load_mapping_truthy_inv w email v); [rewrite Hload; reflexivity|exact Hv].
  - intros Hlook Hu. right. exact (lookup_truthy_inv w client email user_id Hlook Hu).
Qed.

Lemma resolved_user_id_provenance_witness :
  (∃ d table,
     json_loads (getenv world_mapped "SLACK_MAPPINGS_JSON" "") = Ret (PyDict d)
     ∧ dict_get "email_to_user_id" d = Some (PyDict table)
     ∧ dict_get "a@x.com" table = Some (PyStr "U1"))
  ∨ (∃ data user,
       slack_api world_mapped (token (slack_client world_mapped))
         "users.lookupByEmail" [("email", PyStr "a@x.com")] = Ret data
       ∧ dict_get "user" data = Some (PyDict user)
       ∧ dict_get "id" user = Some (PyStr "U1")).
Proof.
  apply (resolved_user_id_provenance world_mapped (slack_client world_mapped));
    vm_compute; reflexivity.
Defined.

(** X9. A static table that cannot answer does not stop the resolution.
    When SLACK_MAPPINGS_JSON is set but does not decode, does not hold a
    dict, holds an email_to_user_id that is not a dict, or maps the email
    to a falsy value, [load_mapping_user_id] returns the empty string
    without raising, and the resolution asks the API: its outcome is that
    of [lookup_user_id_by_email], which is called with the email. *)
Theorem unusable_table_falls_through `{lib : PyLib} (w : world)
    (client : WebClient) (email : string) :
  email ≠ "" →
  getenv w "SLACK_MAPPINGS_JSON" "" ≠ "" →
  table_unusable w email →
  outcome (load_mapping_user_id w email) = Ret (PyStr "")
  ∧ outcome (resolve_slack_user w client email)
    = outcome (lookup_user_id_by_email w client email)
  ∧ SlackCall "users.lookupByEmail" [("email", PyStr email)]
    ∈ trace (resolve_slack_user w client email).
Proof.
  intros He Hraw Hun.
  assert (Hload : ∃ lines, load_mapping_user_id w email = (lines, Ret (PyStr ""))).
  { apply is_empty_false in He, Hraw. unfold load_mapping_user_id, get_method, py_or.
    rewrite Hraw, He. cbn [orb].
    destruct Hun as [(e & ->)|[(v & -> & Hv)|[(d & v & -> & Hd & Hv)
                    |(d & table & v & -> & Hd & Hentry & Hv)]]]; cbn.
    - eauto.
    - destruct v; try discriminate; cbn; eauto.
    - rewrite Hd. cbn. destruct v; try discriminate; cbn; eauto.
    - rewrite Hd. cbn. rewrite Hentry. cbn. rewrite Hv. eauto. }
  destruct Hload as [lines Hload].
  split; [rewrite Hload; reflexivity|].
  unfold resolve_slack_user. pose proof He as He'. apply is_empty_false in He'.
  rewrite He', Hload, bind_ret. cbn [truthy Str.is_empty negb trace fst outcome snd].
  split; [reflexivity|].
  destruct (lookup_trace w client email He) as (lines' & -> & _).
  apply elem_of_app. right. apply elem_of_cons. by left.
Qed.

Lemma unusable_table_falls_through_witness :
  outcome (resolve_slack_user world_empty_entry
             (slack_client world_empty_entry) "alice@x.com")
  = Ret (PyStr "U024BE7LH").
Proof.
  destruct (unusable_table_falls_through world_empty_entry
              (slack_client world_empty_entry) "alice@x.com") as (_ & H & _).
  - discriminate.
  - vm_compute. discriminate.
  - right. right. right.
    exists [("email_to_user_id", PyDict [("alice@x.com", PyStr "")])],
      [("alice@x.com", PyStr "")], (PyStr "").
    repeat split; vm_compute; reflexivity.
  - rewrite H. reflexivity.
Defined.


(** ** What the calls carry *)

Lemma Forall_trace_bind_ret {A B} (P : event → Prop) (m : M A) (f : A → M B) :
  Forall P (trace m) →
  (∀ a, outcome m = Ret a → Forall P (trace (f a))) →
  Forall P (trace (m ≫= f)).
Proof.
  intros Hm Hf. rewrite trace_bind. apply Forall_app. split; [exact Hm|].
  destruct (outcome m) as [a|e]; [apply Hf; reflexivity|constructor].
Qed.

Section Carried.

Context `{lib : PyLib}.
Variable w : world.

Lemma other_carries (ev : event) :
  is_call_of "users.lookupByEmail" ev = false →
  is_call_of "conversations.open" ev = false →
  carries_resolved w ev.
Proof. intros H1 H2. split; intros H; congruence. Qed.

Lemma quiet_carries (lines : list event) :
  Forall (λ ev, is_external ev = false) lines →
  Forall (carries_resolved w) lines.
Proof.
  intros H. eapply Forall_impl; [exact H|].
  intros [argv|method kwargs|to line]; try discriminate.
  intros _. apply other_carries; reflexivity.
Qed.

Lemma post_fallback_carries (client : WebClient) (email text : string)
    (blocks : pyval) :
  Forall (carries_resolved w) (trace (post_fallback w client email text blocks)).
Proof.
  unfold post_fallback. destruct (Str.is_empty _).
  - apply quiet_carries. repeat constructor.
  - apply Forall_trace_bind.
    + rewrite post_message_eq.
      constructor; [apply other_carries; reflexivity|constructor].
    + intros ok. apply quiet_carries. repeat constructor.
Qed.

Lemma resolve_carries :
  Forall (carries_resolved w)
    (trace (resolve_slack_user w (slack_client w) (author_email w))).
Proof.
  unfold resolve_slack_user.
  destruct (Str.is_empty (author_email w)) eqn:He; [constructor|].
  apply is_empty_false in He.
  destruct (load_mapping_quiet w (author_email w)) as (lines & v & -> & Hq).
  apply Forall_trace_bind; [apply quiet_carries, Hq|].
  intros v'. destruct (truthy v'); [constructor|].
  destruct (lookup_trace w (slack_client w) (author_email w) He)
    as (lines' & -> & Hq').
  constructor; [|apply quiet_carries, Hq'].
  split; [intros _; split; [exact He|reflexivity]|discriminate].
Qed.

Lemma notify_carries (user_id : pyval) :
  outcome (resolve_slack_user w (slack_client w) (author_email w)) = Ret user_id →
  Forall (carries_resolved w)
    (trace (notify w (slack_client w) user_id (author_email w)
              (summary w) (blocks w))).
Proof.
  intros Hres. unfold notify.
  assert (Hlater : ∀ line, Forall (carries_resolved w)
            (trace (eprint line;;
                    post_fallback w (slack_client w) (author_email w)
                      (summary w) (blocks w)))).
  { intros line. apply Forall_trace_bind; [|intros _; apply post_fallback_carries].
    apply quiet_carries. repeat constructor. }
  destruct (truthy user_id) eqn:Hu; [|apply Hlater].
  apply Forall_trace_bind.
  { destruct (open_dm_trace w (slack_client w) user_id) as (lines & -> & Hq).
    constructor; [|apply quiet_carries, Hq].
    split; [discriminate|]. intros _. exists user_id. auto. }
  intros channel_id. apply Forall_trace_bind.
  { destruct (truthy channel_id); [|constructor].
    rewrite post_message_eq.
      constructor; [apply other_carries; reflexivity|constructor]. }
  intros [|]; [|apply Hlater]. apply quiet_carries. repeat constructor.
Qed.

End Carried.

(** X12. In every run, a call of [users.lookupByEmail] carries the address
    of the author that the three tiers gave (which is then not empty), and
    a call of [conversations.open] carries the user id that the resolution
    returned (which is then truthy), with [prevent_creation=False]. *)
Theorem calls_carry_what_was_resolved `{lib : PyLib} (w : world) :
  Forall (carries_resolved w) (trace (program w)).
Proof.
  rewrite program_eq. cbn [trace fst]. apply Forall_app. split.
  { rewrite prepare_git_trace.
    destruct (getenv_opt w "CI_PROJECT_DIR") as [d|]; [|constructor].
    destruct (Str.is_empty d); [constructor|].
    destruct (run_process w (git_config_safe d));
      repeat (constructor; [apply other_carries; reflexivity|]); constructor. }
  destruct (Str.is_empty (bot_token w)) eqn:Ht.
  { apply is_empty_true in Ht. rewrite (main_no_token w Ht).
    apply quiet_carries. repeat constructor. }
  apply is_empty_false in Ht.
  destruct (re_search (branch_regex w) (branch w)) as [| |msg] eqn:Hre.
  - rewrite (main_match w Ht Hre).
    apply Forall_trace_bind.
    { unfold author_line. destruct (Str.is_empty (author_email w));
        repeat (constructor; [apply other_carries; reflexivity|]); constructor. }
    intros _. apply Forall_trace_bind_ret; [apply resolve_carries|].
    intros user_id. apply notify_carries.
  - rewrite (main_no_match w Ht Hre). apply quiet_carries. repeat constructor.
  - rewrite (main_bad_regex w msg Ht Hre). constructor.
Qed.


(** ** What a run never does *)

Section Known.

Context `{lib : PyLib}.
Variable w : world.

Lemma quiet_known (lines : list event) :
  Forall (λ ev, is_external ev = false) lines → Forall (known_event w) lines.
Proof.
  intros H. eapply Forall_impl; [exact H|].
  intros [argv|method kwargs|to line]; try discriminate. intros _. exact I.
Qed.

Lemma post_message_known (client : WebClient) (channel : pyval)
    (text : string) (blocks : pyval) :
  Forall (known_event w) (trace (post_message w client channel text blocks)).
Proof.
  rewrite post_message_eq. constructor; [|constructor].
  right. right. reflexivity.
Qed.

Lemma post_fallback_known (client : WebClient) (email text : string)
    (blocks : pyval) :
  Forall (known_event w) (trace (post_fallback w client email text blocks)).
Proof.
  unfold post_fallback. destruct (Str.is_empty _).
  - apply quiet_known. repeat constructor.
  - apply Forall_trace_bind; [apply post_message_known|].
    intros ok. apply quiet_known. repeat constructor.
Qed.

Lemma resolve_known (client : WebClient) (email : string) :
  Forall (known_event w) (trace (resolve_slack_user w client email)).
Proof.
  unfold resolve_slack_user.
  destruct (Str.is_empty email) eqn:He; [constructor|].
  apply is_empty_false in He.
  destruct (load_mapping_quiet w email) as (lines & v & -> & Hq).
  apply Forall_trace_bind; [apply quiet_known, Hq|].
  intros v'. destruct (truthy v'); [constructor|].
  destruct (lookup_trace w client email He) as (lines' & -> & Hq').
  constructor; [left; reflexivity|apply quiet_known, Hq'].
Qed.

Lemma notify_known (client : WebClient) (user_id : pyval)
    (email text : string) (blocks : pyval) :
  Forall (known_event w) (trace (notify w client user_id email text blocks)).
Proof.
  unfold notify.
  assert (Hlater : ∀ line, Forall (known_event w)
            (trace (eprint line;; post_fallback w client email text blocks))).
  { intros line. rewrite eprint_bind. constructor; [exact I|].
    apply post_fallback_known. }
  destruct (truthy user_id); [|apply Hlater].
  apply Forall_trace_bind.
  { destruct (open_dm_trace w client user_id) as (lines & -> & Hq).
    constructor; [right; left; reflexivity|apply quiet_known, Hq]. }
  intros channel_id. apply Forall_trace_bind.
  { destruct (truthy channel_id); [apply post_message_known|constructor]. }
  intros [|]; [|apply Hlater]. apply quiet_known. repeat constructor.
Qed.

End Known.

(** X13. A run starts no subprocess but the three git commands of the
    script ([git show -s --format=%ae] on CI_COMMIT_SHA,
    [git config --global --add safe.directory] on CI_PROJECT_DIR, and
    [git fetch --unshallow]), each value of the environment passed as one
    argument, and calls no method of the Slack client but
    [users.lookupByEmail], [conversations.open] and [chat.postMessage]. *)
Theorem only_known_calls `{lib : PyLib} (w : world) :
  Forall (known_event w) (trace (program w)).
Proof.
  rewrite program_eq. cbn [trace fst]. apply Forall_app. split.
  { rewrite prepare_git_trace.
    destruct (getenv_opt w "CI_PROJECT_DIR") as [d|] eqn:Hd; [|constructor].
    destruct (Str.is_empty d); [constructor|].
    assert (Hc : known_event w (Subprocess (git_config_safe d))).
    { right. right. exists d. rewrite Hd. auto. }
    assert (Hf : known_event w (Subprocess git_fetch_unshallow)).
    { right. left. reflexivity. }
    destruct (run_process w (git_config_safe d)); repeat (constructor; [assumption|]);
      constructor. }
  destruct (Str.is_empty (bot_token w)) eqn:Ht.
  { apply is_empty_true in Ht. rewrite (main_no_token w Ht).
    apply quiet_known. repeat constructor. }
  apply is_empty_false in Ht.
  destruct (re_search (branch_regex w) (branch w)) as [| |msg] eqn:Hre.
  - rewrite (main_match w Ht Hre).
    apply Forall_trace_bind.
    { constructor; [left; reflexivity|]. apply quiet_known.
      unfold author_line. destruct (Str.is_empty (author_email w));
        repeat constructor. }
    intros _. apply Forall_trace_bind; [apply resolve_known|].
    intros user_id. apply notify_known.
  - rewrite (main_no_match w Ht Hre). apply quiet_known. repeat constructor.
  - rewrite (main_bad_regex w msg Ht Hre). constructor.
Qed.

(** ** When the exit status is 0 *)

Section ExitZero.

Context `{lib : PyLib}.
Variable w : world.
Variable client : WebClient.

Hypothesis lookup_handled : ∀ kwargs,
  handled "user" (slack_api w (token client) "users.lookupByEmail" kwargs) = true.
Hypothesis open_handled : ∀ kwargs,
  handled "channel" (slack_api w (token client) "conversations.open" kwargs) = true.
Hypothesis post_returned : ∀ kwargs,
  returned (slack_api w (token client) "chat.postMessage" kwargs) = true.

Lemma lookup_returns (email : string) :
  ∃ v, outcome (lookup_user_id_by_email w client email) = Ret v.
Proof.
  unfold lookup_user_id_by_email, api_call, assert_, getitem, response_get.
  destruct (Str.is_empty email); [eexists; reflexivity|]. cbn.
  specialize (lookup_handled [("email", PyStr email)]). unfold handled in *.
  destruct (slack_api w _ _ _) as [data|[msg resp|cls msg]]; cbn;
    [|unfold response_get in *; rewrite lookup_handled; eexists; reflexivity
     |discriminate].
  destruct (dict_get "user" data) as [[| | | | | |d]|]; try discriminate. cbn.
  destruct (dict_get "id" d); [eexists; reflexivity|discriminate].
Qed.

Lemma open_dm_returns (user_id : pyval) :
  ∃ v, outcome (open_dm w client user_id) = Ret v.
Proof.
  unfold open_dm, api_call, assert_, getitem, response_get. cbn.
  specialize (open_handled [("users", user_id); ("prevent_creation", PyBool false)]).
  unfold handled in *.
  destruct (slack_api w _ _ _) as [data|[msg resp|cls msg]]; cbn;
    [|unfold response_get in *; rewrite open_handled; eexists; reflexivity
     |discriminate].
  destruct (dict_get "channel" data) as [[| | | | | |d]|]; try discriminate. cbn.
  destruct (dict_get "id" d); [eexists; reflexivity|discriminate].
Qed.

Lemma post_message_returns (channel : pyval) (text : string) (blocks : pyval) :
  outcome (post_message w client channel text blocks) = Ret true.
Proof.
  rewrite post_message_eq. cbn [outcome snd].
  specialize (post_returned [("channel", PyStr "ci"); ("text", PyStr text);
                             ("blocks", blocks)]).
  destruct (slack_api w _ _ _); [reflexivity|discriminate].
Qed.

Lemma post_fallback_returns (email text : string) (blocks : pyval) :
  outcome (post_fallback w client email text blocks) = Ret 0.
Proof.
  unfold post_fallback. destruct (Str.is_empty _); [reflexivity|].
  rewrite (bind_returned _ _ _ (post_message_returns _ _ _)). reflexivity.
Qed.

Lemma notify_returns (user_id : pyval) (email text : string) (blocks : pyval) :
  outcome (notify w client user_id email text blocks) = Ret 0.
Proof.
  unfold notify. destruct (truthy user_id).
  - destruct (open_dm_returns user_id) as [channel_id Hopen].
    rewrite (bind_returned _ _ _ Hopen). cbn [outcome snd].
    destruct (truthy channel_id).
    + rewrite (bind_returned _ _ _ (post_message_returns _ _ _)). reflexivity.
    + rewrite mret_bind, eprint_bind. apply post_fallback_returns.
  - rewrite eprint_bind. apply post_fallback_returns.
Qed.

Lemma resolve_returns (email : string) :
  ∃ v, outcome (resolve_slack_user w client email) = Ret v.
Proof.
  unfold resolve_slack_user. destruct (Str.is_empty email); [eexists; reflexivity|].
  destruct (load_mapping_quiet w email) as (lines & v & -> & _).
  rewrite bind_ret. cbn [outcome snd].
  destruct (truthy v); [eexists; reflexivity|apply lookup_returns].
Qed.

End ExitZero.

(** X14. The process exits with status 0 whenever the pattern of the branch
    filter compiles (or no token is set) and the API gives the script only
    answers it copes with: to the lookup and to [conversations.open] an
    answer that holds the id, or a [SlackApiError] with an error code; to
    [chat.postMessage] an answer.  Nothing that git does matters. *)
Theorem exit_status_0_when_answers_are_handled `{lib : PyLib} (w : world) :
  (bot_token w = "" ∨ ∀ msg, re_search (branch_regex w) (branch w) ≠ ReError msg) →
  (∀ kwargs, handled "user"
     (slack_api w (bot_token w) "users.lookupByEmail" kwargs) = true) →
  (∀ kwargs, handled "channel"
     (slack_api w (bot_token w) "conversations.open" kwargs) = true) →
  (∀ kwargs, returned
     (slack_api w (bot_token w) "chat.postMessage" kwargs) = true) →
  outcome (main w) = Ret 0 ∧ exit_status (program w) = 0.
Proof.
  intros Hre Hlookup Hopen Hpost.
  assert (Hmain : outcome (main w) = Ret 0).
  { destruct (Str.is_empty (bot_token w)) eqn:Ht.
    { apply is_empty_true in Ht. rewrite (main_no_token w Ht). reflexivity. }
    apply is_empty_false in Ht. destruct Hre as [Hre|Hre]; [contradiction|].
    destruct (re_search (branch_regex w) (branch w)) as [| |msg] eqn:Hs.
    - rewrite (main_match w Ht Hs), bind_ret. cbn [outcome snd].
      destruct (resolve_returns w (slack_client w) Hlookup (author_email w))
        as [user_id Hres].
      rewrite (bind_returned _ _ _ Hres). cbn [outcome snd].
      apply (notify_returns w (slack_client w) Hopen Hpost).
    - rewrite (main_no_match w Ht Hs). reflexivity.
    - destruct (Hre msg eq_refl). }
  split; [exact Hmain|]. rewrite program_eq. unfold exit_status. cbn [outcome snd].
  rewrite Hmain. reflexivity.
Qed.

Lemma exit_status_0_when_answers_are_handled_witness :
  exit_status (program world_lookup_refused) = 0.
Proof.
  refine (proj2 (exit_status_0_when_answers_are_handled world_lookup_refused _ _ _ _)).
  - right. intros msg. vm_compute. discriminate.
  - intros kwargs. reflexivity.
  - intros kwargs. reflexivity.
  - intros kwargs. reflexivity.
Defined.
